(** * mongo-express, [lib/bson.js]: BSON values to shell syntax and back

    A shallow embedding of [lib/bson.js] and the properties of its
    specification.

    - [JS], [Regex]: completions and exceptions, and a backtracking
      regular-expression matcher with [test] and global [replace];
    - [Encoding], [bson]: the text encodings and the value classes of the
      BSON library that the formatters read;
    - values, truthiness, internal classes and property lookup, with the
      members an object literal inherits from [Object.prototype];
    - the module itself, definition by definition, over a [Collaborators]
      record for the packages it imports and the conversions it leaves to
      the runtime;
    - [Reference]: an instance of the collaborators on which the module
      runs, and the properties. *)

From Stdlib Require Import ZArith NArith List String Ascii Bool Lia.
From Stdlib Require Import PrimFloat SpecFloat FloatOps.
From Stdlib Require Strings.Byte.
Import ListNotations.

Local Open Scope string_scope.
Local Open Scope list_scope.

(* ================================================================== *)
(** * The JavaScript runtime fragment *)
(* ================================================================== *)

Module JS.

(** Errors that can be thrown; the payload is the message. *)
Inductive JsError : Type :=
| TypeError (msg : string)
| RangeError (msg : string)
| SyntaxError (msg : string)
| LibraryError (msg : string).

(** The outcome of evaluating an expression or a call. *)
Inductive completion (A : Type) : Type :=
| Return (a : A)
| Throw (e : JsError).

Arguments Return {A} a.
Arguments Throw {A} e.

Definition bind {A B} (m : completion A) (k : A -> completion B) : completion B :=
  match m with
  | Return a => k a
  | Throw e => Throw e
  end.

(** [try { m } catch (ex) { h ex }] *)
Definition try_catch {A} (m : completion A) (h : JsError -> completion A) : completion A :=
  match m with
  | Return a => Return a
  | Throw e => h e
  end.

Definition returns {A} (m : completion A) : Prop := exists a, m = Return a.

Definition throws {A} (m : completion A) : Prop := exists e, m = Throw e.

(** Dates: the time value in milliseconds, [None] for an Invalid Date. *)
Record DateObj : Type := { time_value : option Z }.

(** The properties of a RegExp instance the module reads. *)
Record RegExpObj : Type := {
  source : string;
  global : bool;
  ignoreCase : bool;
  multiline : bool
}.

End JS.

(* ================================================================== *)
(** * Regular expressions: backtracking matching, [test], global [replace] *)
(* ================================================================== *)

Module Regex.

(** The constructs used by the module's three patterns. *)
Inductive regex : Type :=
| Chr (c : ascii)                 (* a literal character *)
| Cls (p : ascii -> bool)         (* a character class *)
| Cat (r1 r2 : regex)             (* r1 r2 *)
| Opt (r : regex)                 (* r?      greedy *)
| Times (n : nat) (r : regex)     (* r{n} *)
| AtLeast (n : nat) (r : regex).  (* r{n,}   greedy *)

Section Repetition.

(** [m s] lists the inputs left after one match of the repeated atom at
    the head of [s], preferred alternative first. *)
Variable m : list ascii -> list (list ascii).

Fixpoint times (n : nat) (s : list ascii) : list (list ascii) :=
  match n with
  | O => [s]
  | S k => flat_map (times k) (m s)
  end.

(** Greedy unbounded repetition; an iteration that consumes nothing is
    rejected, as the RepeatMatcher of the language does. *)
Fixpoint star (fuel : nat) (s : list ascii) : list (list ascii) :=
  match fuel with
  | O => [s]
  | S f =>
      flat_map (fun s' => if (List.length s' <? List.length s)%nat then star f s' else []) (m s)
      ++ [s]
  end.

End Repetition.

(** All ways of matching [r] at the head of [s], as the inputs left over,
    in the order backtracking tries them. *)
Fixpoint run (r : regex) (s : list ascii) : list (list ascii) :=
  match r with
  | Chr c =>
      match s with
      | x :: t => if Ascii.eqb x c then [t] else []
      | [] => []
      end
  | Cls p =>
      match s with
      | x :: t => if p x then [t] else []
      | [] => []
      end
  | Cat r1 r2 => flat_map (run r2) (run r1 s)
  | Opt r1 => run r1 s ++ [s]
  | Times n r1 => times (run r1) n s
  | AtLeast n r1 =>
      flat_map (fun s' => star (run r1) (List.length s') s') (times (run r1) n s)
  end.

(** [/^r$/.test(s)]: some way of matching [r] at index 0 ends at the end
    of the input (no multiline flag, so [$] is the end of input only). *)
Definition test_anchored (r : regex) (s : string) : bool :=
  existsb (fun rest => match rest with [] => true | _ => false end)
          (run r (list_ascii_of_string s)).

(** The scan of [String.prototype.replace] with a global pattern and a
    constant replacement; [skip] counts the characters of the current match
    still to be dropped.  After an empty match the scan advances by one
    character, which is copied. *)
Fixpoint replace_scan (r : regex) (repl : list ascii) (skip : nat) (s : list ascii)
  : list ascii :=
  match s with
  | [] =>
      match skip, run r [] with
      | O, _ :: _ => repl
      | _, _ => []
      end
  | c :: t =>
      match skip with
      | S k => replace_scan r repl k t
      | O =>
          match run r s with
          | rest :: _ =>
              match (List.length s - List.length rest)%nat with
              | O => repl ++ c :: replace_scan r repl 0 t
              | S k => repl ++ replace_scan r repl k t
              end
          | [] => c :: replace_scan r repl 0 t
          end
      end
  end.

(** [s.replace(/r/g, repl)] *)
Definition replace_all (r : regex) (repl : string) (s : string) : string :=
  string_of_list_ascii
    (replace_scan r (list_ascii_of_string repl) 0 (list_ascii_of_string s)).

End Regex.

(* ================================================================== *)
(** * Text encodings of the runtime and of the BSON library *)
(* ================================================================== *)

Module Encoding.

Definition hex_digit (n : N) : ascii :=
  if (n <? 10)%N then ascii_of_N (48 + n) else ascii_of_N (87 + n).

(** Two lowercase hexadecimal digits per byte: [Buffer.toString('hex')]. *)
Definition byte_hex (b : Byte.byte) : list ascii :=
  let n := Byte.to_N b in [hex_digit (n / 16); hex_digit (n mod 16)].

Definition toHex (bs : list Byte.byte) : string :=
  string_of_list_ascii (flat_map byte_hex bs).

(** The value of a hexadecimal digit of either case. *)
Definition hex_value (c : ascii) : option N :=
  let n := N_of_ascii c in
  if ((48 <=? n) && (n <=? 57))%N then Some (n - 48)%N
  else if ((97 <=? n) && (n <=? 102))%N then Some (n - 87)%N
  else if ((65 <=? n) && (n <=? 70))%N then Some (n - 55)%N
  else None.

Definition is_hex_digit (c : ascii) : bool :=
  match hex_value c with Some _ => true | None => false end.

Definition byte_of_N (n : N) : Byte.byte :=
  match Byte.of_N n with Some b => b | None => Byte.x00 end.

(** Pairs of hexadecimal digits to bytes: [Buffer.from(s, 'hex')] on a
    string of hexadecimal digits. *)
Fixpoint fromHex_list (s : list ascii) : list Byte.byte :=
  match s with
  | hi :: lo :: rest =>
      match hex_value hi, hex_value lo with
      | Some h, Some l => byte_of_N (16 * h + l) :: fromHex_list rest
      | _, _ => []
      end
  | _ => []
  end.

Definition fromHex (s : string) : list Byte.byte :=
  fromHex_list (list_ascii_of_string s).

(** The base64 alphabet of RFC 4648. *)
Definition base64_digit (n : N) : ascii :=
  if (n <? 26)%N then ascii_of_N (65 + n)
  else if (n <? 52)%N then ascii_of_N (71 + n)
  else if (n <? 62)%N then ascii_of_N (n - 4)
  else if (n =? 62)%N then "+"%char
  else "/"%char.

(** [Buffer.toString('base64')]: three bytes to four digits, padded with
    [=]. *)
Fixpoint base64_list (bs : list Byte.byte) : list ascii :=
  match bs with
  | [] => []
  | [a] =>
      let x := Byte.to_N a in
      [base64_digit (x / 4); base64_digit ((x mod 4) * 16); "="%char; "="%char]
  | [a; b] =>
      let x := Byte.to_N a in
      let y := Byte.to_N b in
      [base64_digit (x / 4); base64_digit ((x mod 4) * 16 + y / 16);
       base64_digit ((y mod 16) * 4); "="%char]
  | a :: b :: c :: rest =>
      let x := Byte.to_N a in
      let y := Byte.to_N b in
      let z := Byte.to_N c in
      base64_digit (x / 4) :: base64_digit ((x mod 4) * 16 + y / 16)
      :: base64_digit ((y mod 16) * 4 + z / 64) :: base64_digit (z mod 64)
      :: base64_list rest
  end.

Definition toBase64 (bs : list Byte.byte) : string :=
  string_of_list_ascii (base64_list bs).

(** The digits of [n] in the given base, most significant first and
    without leading zero, in front of [acc]; [fuel] bounds their number. *)
Fixpoint digits (base : N) (digit : N -> ascii) (fuel : nat) (n : N) (acc : list ascii)
  : list ascii :=
  match fuel with
  | O => acc
  | S f =>
      let acc' := digit (n mod base)%N :: acc in
      if (n <? base)%N then acc' else digits base digit f (n / base)%N acc'
  end.

Definition dec_digit (n : N) : ascii := ascii_of_N (48 + n).

Definition N_toString (base : N) (digit : N -> ascii) (n : N) : string :=
  string_of_list_ascii (digits base digit (S (N.to_nat (N.log2 n))) n []).

(** [Number.prototype.toString(16)] on an integral number. *)
Definition Number_toString16 (z : Z) : string :=
  if (z <? 0)%Z then ("-" ++ N_toString 16 hex_digit (Z.to_N (- z)))%string
  else N_toString 16 hex_digit (Z.to_N z).

(** The decimal text of an integer: [Number.prototype.toString()] on an
    integral number in the safe range, [Long.prototype.toString()]. *)
Definition Integer_toString (z : Z) : string :=
  if (z <? 0)%Z then ("-" ++ N_toString 10 dec_digit (Z.to_N (- z)))%string
  else N_toString 10 dec_digit (Z.to_N z).

(** The number a list of digits denotes. *)
Definition digits_value (base : N) (value : ascii -> N) (l : list ascii) : N :=
  fold_left (fun a c => (base * a + value c)%N) l 0%N.

Definition hex_digit_value (c : ascii) : N :=
  match hex_value c with Some n => n | None => 0%N end.

Definition dec_digit_value (c : ascii) : N := (N_of_ascii c - 48)%N.

Definition quote_char : ascii := ascii_of_N 34.
Definition backslash : ascii := ascii_of_N 92.

(** One code unit of QuoteJSONString. *)
Definition json_escape (c : ascii) : list ascii :=
  let n := N_of_ascii c in
  if (n =? 8)%N then [backslash; "b"%char]
  else if (n =? 9)%N then [backslash; "t"%char]
  else if (n =? 10)%N then [backslash; "n"%char]
  else if (n =? 12)%N then [backslash; "f"%char]
  else if (n =? 13)%N then [backslash; "r"%char]
  else if (n =? 34)%N then [backslash; quote_char]
  else if (n =? 92)%N then [backslash; backslash]
  else if (n <? 32)%N then
    [backslash; "u"%char; "0"%char; "0"%char; hex_digit (n / 16); hex_digit (n mod 16)]
  else [c].

(** [JSON.stringify(s)] for a string [s]. *)
Definition JSON_stringify_string (s : string) : string :=
  string_of_list_ascii
    (quote_char :: flat_map json_escape (list_ascii_of_string s) ++ [quote_char]).

End Encoding.

(* ================================================================== *)
(** * The value classes of the BSON library *)
(* ================================================================== *)

Module bson.

(** [Binary]: [buffer] is the backing store, of which the first [position]
    bytes are the payload; [toString(encoding)] encodes the payload. *)
Record Binary : Type := {
  sub_type : Z;
  buffer : list Byte.byte;
  position : nat
}.

Definition payload (v : Binary) : list Byte.byte := firstn (position v) (buffer v).

Definition Binary_toString_hex (v : Binary) : string := Encoding.toHex (payload v).

Definition Binary_toString_base64 (v : Binary) : string := Encoding.toBase64 (payload v).

(** [ObjectId]: twelve bytes. *)
Record ObjectId : Type := { id : list Byte.byte }.

(** [new ObjectId(s)] for a string of 24 hexadecimal digits. *)
Definition ObjectId_fromHex (s : string) : ObjectId := {| id := Encoding.fromHex s |}.

(** [ObjectId.prototype.toString('hex')] and [toString()]. *)
Definition ObjectId_toString (o : ObjectId) : string := Encoding.toHex (id o).

(** [Long] and [Timestamp]: two 32-bit halves, kept as signed integers. *)
Record Long : Type := { low : Z; high : Z; unsigned : bool }.

Definition Long_value (l : Long) : Z :=
  (if unsigned l then (high l mod 2 ^ 32) * 2 ^ 32 + low l mod 2 ^ 32
   else high l * 2 ^ 32 + low l mod 2 ^ 32)%Z.

Definition Long_toString (l : Long) : string := Encoding.Integer_toString (Long_value l).

Record Int32 : Type := { int32_value : Z }.

Record Double : Type := { double_value : float }.

Record Decimal128 : Type := { bytes : list Byte.byte }.

(** [DBRef]: [namespace] is an accessor for [collection]. *)
Record DBRef : Type := { collection : string; oid : ObjectId; db : option string }.

Definition namespace (r : DBRef) : string := collection r.

End bson.

(* ================================================================== *)
(** * Values *)
(* ================================================================== *)

Export JS.

(** The values the module is handed: primitives, plain objects and
    arrays, the built-in classes of its lookup table, instances of the
    BSON library, and any other object, known by its internal class. *)
#[local] Unset Elimination Schemes.
Inductive Value : Type :=
| VUndefined
| VNull
| VBool (b : bool)
| VNumber (x : float)
| VString (s : string)
| VArray (items : list Value)
| VObject (props : list (string * Value))
| VDate (d : DateObj)
| VRegExp (r : RegExpObj)
| VFunction (text : string)
| VHost (class : string)
| VBson (b : BsonValue)
with BsonValue : Type :=
| BCode (code : string) (scope : Value)
| BObjectId (legacy_tag : bool) (o : bson.ObjectId)
| BBinary (v : bson.Binary)
| BDBRef (r : bson.DBRef)
| BTimestamp (t : bson.Long)
| BLong (l : bson.Long)
| BDecimal128 (d : bson.Decimal128)
| BDouble (d : bson.Double)
| BInt32 (i : bson.Int32)
| BMaxKey
| BMinKey
| BOther (tag : string).
#[local] Set Elimination Schemes.

(** The [_bsontype] marker the library sets on its instances. *)
Definition bsontype_of (b : BsonValue) : string :=
  match b with
  | BCode _ _ => "Code"
  | BObjectId true _ => "ObjectID"
  | BObjectId false _ => "ObjectId"
  | BBinary _ => "Binary"
  | BDBRef _ => "DBRef"
  | BTimestamp _ => "Timestamp"
  | BLong _ => "Long"
  | BDecimal128 _ => "Decimal128"
  | BDouble _ => "Double"
  | BInt32 _ => "Int32"
  | BMaxKey => "MaxKey"
  | BMinKey => "MinKey"
  | BOther tag => tag
  end.

(** ToBoolean *)
Definition ToBoolean (v : Value) : bool :=
  match v with
  | VUndefined | VNull => false
  | VBool b => b
  | VNumber x => negb (PrimFloat.eqb x 0 || negb (PrimFloat.eqb x x))
  | VString s => negb (String.eqb s "")
  | _ => true
  end.

(** [a === b] against a string literal [b]. *)
Definition strict_equals_string (a : Value) (b : string) : bool :=
  match a with
  | VString s => String.eqb s b
  | _ => false
  end.

(** The first entry for a key. *)
Fixpoint assoc {A} (k : string) (l : list (string * A)) : option A :=
  match l with
  | [] => None
  | (k', a) :: rest => if String.eqb k k' then Some a else assoc k rest
  end.

(** [value._bsontype]: a TypeError on [null] and [undefined]; the own
    property of a plain object; the marker of a library instance;
    [undefined] otherwise, no prototype of the runtime defining it. *)
Definition Get_bsontype (value : Value) : completion Value :=
  match value with
  | VUndefined => Throw (TypeError "Cannot read properties of undefined (reading '_bsontype')")
  | VNull => Throw (TypeError "Cannot read properties of null (reading '_bsontype')")
  | VObject props =>
      match assoc "_bsontype" props with
      | Some m => Return m
      | None => Return VUndefined
      end
  | VBson b => Return (VString (bsontype_of b))
  | _ => Return VUndefined
  end.

(** The internal class: the [X] of [Object.prototype.toString.call(value)]
    = ["[object X]"]. *)
Definition class_of (value : Value) : string :=
  match value with
  | VUndefined => "Undefined"
  | VNull => "Null"
  | VBool _ => "Boolean"
  | VNumber _ => "Number"
  | VString _ => "String"
  | VArray _ => "Array"
  | VObject _ => "Object"
  | VDate _ => "Date"
  | VRegExp _ => "RegExp"
  | VFunction _ => "Function"
  | VHost c => c
  | VBson _ => "Object"
  end.

Definition Object_prototype_toString_call (value : Value) : string :=
  "[object " ++ class_of value ++ "]".

Definition is_object (v : Value) : bool :=
  match v with
  | VUndefined | VNull | VBool _ | VNumber _ | VString _ => false
  | _ => true
  end.

(* ================================================================== *)
(** * The packages the module imports and the runtime it calls *)
(* ================================================================== *)

(** The [indent] argument of the structural stringifier. *)
Inductive Indent : Type :=
| IndentNumber (n : nat)
| IndentString (s : string).

(** The third argument a replacer receives: the stringifier's own
    rendering of a value. *)
Definition Stringify : Type := Value -> completion Value.

Definition Replacer : Type := Value -> string -> Stringify -> completion Value.

(** What [lib/bson.js] calls and does not define. *)
Class Collaborators : Type := {
  (** [mongodb-query-parser]: the free-text parser; it may throw. *)
  parser : string -> completion Value;
  (** [javascript-stringify]: [stringify(value, replacer, indent)]. *)
  toJavascriptString : Value -> Replacer -> Indent -> completion Value;
  (** [EJSON.serialize] and [EJSON.stringify]. *)
  EJSON_serialize : Value -> completion Value;
  EJSON_stringify : Value -> completion Value;
  (** the marker [new ObjectId] sets: ['ObjectID'] in old versions. *)
  legacy_ObjectID_tag : bool;
  (** [v.toUUID().toString()] on a Binary; it may throw. *)
  Binary_toUUID_toString : bson.Binary -> completion string;
  (** [Decimal128.prototype.toString()]. *)
  Decimal128_toString : bson.Decimal128 -> string;
  (** Number::toString on a double. *)
  Number_toString : float -> string;
  (** [toISOString()] and [toString()] of a Date with a valid time value. *)
  Date_toISOString : Z -> string;
  Date_toString : Z -> string;
  (** the text [JSON.stringify(x)] interpolates for a value. *)
  JSON_stringify : Value -> completion string;
  (** ToPropertyKey on an object: it runs the object's conversion methods. *)
  ToPropertyKey_object : Value -> completion string;
  (** the named code run on a receiver that is no instance of the class it
      expects (method calls on an arbitrary object). *)
  call_unmodelled : string -> Value -> completion Value
}.

(** What an operation does besides returning or throwing. *)
Inductive Event : Type :=
| ParserCalled (input : string)
| ConsoleError (e : JsError).

Definition effectful (A : Type) : Type := (completion A * list Event)%type.

Definition eff_return {A} (a : A) : effectful A := (Return a, []).

Definition eff_try_catch {A} (m : effectful A) (h : JsError -> effectful A) : effectful A :=
  match m with
  | (Return a, tr) => (Return a, tr)
  | (Throw e, tr) => let (r, tr') := h e in (r, tr ++ tr')
  end.

Definition eff_seq {A B} (m : effectful A) (k : effectful B) : effectful B :=
  match m with
  | (Return _, tr) => let (r, tr') := k in (r, tr ++ tr')
  | (Throw e, tr) => (Throw e, tr)
  end.

(** [console.error(error)] *)
Definition console_error (e : JsError) : effectful unit := (Return tt, [ConsoleError e]).

Declare Scope js_scope.
Delimit Scope js_scope with js.
Notation "x <- m ;; k" := (bind m (fun x => k))
  (at level 61, m at next level, right associativity) : js_scope.
Local Open Scope js_scope.

(** [Date.prototype.toISOString]: a RangeError on an Invalid Date. *)
Definition Date_prototype_toISOString `{Collaborators} (d : DateObj) : completion string :=
  match time_value d with
  | Some t => Return (Date_toISOString t)
  | None => Throw (RangeError "Invalid time value")
  end.

Definition Date_prototype_toString `{Collaborators} (d : DateObj) : string :=
  match time_value d with
  | Some t => Date_toString t
  | None => "Invalid Date"
  end.

(** ToPropertyKey *)
Definition ToPropertyKey `{Collaborators} (v : Value) : completion string :=
  match v with
  | VString s => Return s
  | VUndefined => Return "undefined"
  | VNull => Return "null"
  | VBool true => Return "true"
  | VBool false => Return "false"
  | VNumber x => Return (Number_toString x)
  | _ => ToPropertyKey_object v
  end.

(** The function-valued properties of [Object.prototype]. *)
Inductive ObjectPrototypeFunction : Type :=
| OP_constructor
| OP_defineGetter
| OP_defineSetter
| OP_hasOwnProperty
| OP_lookupGetter
| OP_lookupSetter
| OP_isPrototypeOf
| OP_propertyIsEnumerable
| OP_toString
| OP_valueOf
| OP_toLocaleString.

(** What reading a property of an object literal of functions yields. *)
Inductive Property : Type :=
| PUndefined
| PFunction (f : Value -> completion Value)
| PBuiltin (b : ObjectPrototypeFunction)
| PObjectPrototype.

(** The properties every object literal inherits from [Object.prototype]. *)
Definition Object_prototype_get (key : string) : Property :=
  if String.eqb key "constructor" then PBuiltin OP_constructor
  else if String.eqb key "__defineGetter__" then PBuiltin OP_defineGetter
  else if String.eqb key "__defineSetter__" then PBuiltin OP_defineSetter
  else if String.eqb key "hasOwnProperty" then PBuiltin OP_hasOwnProperty
  else if String.eqb key "__lookupGetter__" then PBuiltin OP_lookupGetter
  else if String.eqb key "__lookupSetter__" then PBuiltin OP_lookupSetter
  else if String.eqb key "isPrototypeOf" then PBuiltin OP_isPrototypeOf
  else if String.eqb key "propertyIsEnumerable" then PBuiltin OP_propertyIsEnumerable
  else if String.eqb key "toString" then PBuiltin OP_toString
  else if String.eqb key "valueOf" then PBuiltin OP_valueOf
  else if String.eqb key "toLocaleString" then PBuiltin OP_toLocaleString
  else if String.eqb key "__proto__" then PObjectPrototype
  else PUndefined.

(** [obj[key]] on an object literal with the given own properties: the own
    property, else the inherited one. *)
Definition Get (own : list (string * (Value -> completion Value))) (key : string) : Property :=
  match assoc key own with
  | Some f => PFunction f
  | None => Object_prototype_get key
  end.

Definition Property_ToBoolean (p : Property) : bool :=
  match p with
  | PUndefined => false
  | _ => true
  end.

(** [Object(v)] *)
Definition Object_constructor (v : Value) : Value :=
  match v with
  | VUndefined | VNull => VObject []
  | VBool _ => VHost "Boolean"
  | VNumber _ => VHost "Number"
  | VString _ => VHost "String"
  | _ => v
  end.

Definition not_an_object : JsError :=
  TypeError "Cannot convert undefined or null to object".

(** [p(arg)]: a call with one argument and [this] undefined. *)
Definition Call `{Collaborators} (p : Property) (arg : Value) : completion Value :=
  match p with
  | PFunction f => f arg
  | PBuiltin OP_constructor => Return (Object_constructor arg)
  | PBuiltin OP_toString => Return (VString "[object Undefined]")
  | PBuiltin OP_isPrototypeOf =>
      if is_object arg then Throw not_an_object else Return (VBool false)
  | PBuiltin OP_hasOwnProperty | PBuiltin OP_propertyIsEnumerable =>
      _ <- ToPropertyKey arg ;; Throw not_an_object
  | PBuiltin _ => Throw not_an_object
  | PObjectPrototype => Throw (TypeError "toJs is not a function")
  | PUndefined => Throw (TypeError "toJs is not a function")
  end.

(* ================================================================== *)
(** * [lib/bson.js] *)
(* ================================================================== *)

(** [export const toBSON = parser] *)
Definition toBSON `{Collaborators} (s : string) : effectful Value :=
  (parser s, [ParserCalled s]).

(** [toSafeBSON]: [try { return toBSON(string) } catch (error)
    { console.error(error); return null }] *)
Definition toSafeBSON `{Collaborators} (s : string) : effectful Value :=
  eff_try_catch (toBSON s)
    (fun error => eff_seq (console_error error) (eff_return VNull)).

(** The class [[\da-f]] and its reading under the [i] flag. *)
Definition digit_or_a_to_f (c : ascii) : bool :=
  let n := N_of_ascii c in
  (((48 <=? n) && (n <=? 57)) || ((97 <=? n) && (n <=? 102)))%N.

Definition ascii_toLowerCase (c : ascii) : ascii :=
  let n := N_of_ascii c in
  if ((65 <=? n) && (n <=? 90))%N then ascii_of_N (n + 32) else c.

Definition ignoring_case (p : ascii -> bool) (c : ascii) : bool :=
  p c || p (ascii_toLowerCase c).

(** [/^[\da-f]{24}$/i] between its anchors *)
Definition hex24 : Regex.regex :=
  Regex.Times 24 (Regex.Cls (ignoring_case digit_or_a_to_f)).

(** [parseObjectId] *)
Definition parseObjectId `{Collaborators} (s : string) : effectful Value :=
  if Regex.test_anchored hex24 s
  then eff_return (VBson (BObjectId legacy_ObjectID_tag (bson.ObjectId_fromHex s)))
  else toBSON s.

(** [TYPE_FOR_TO_STRING] *)
Definition TYPE_FOR_TO_STRING : list (string * string) :=
  [ ("[object Array]", "Array");
    ("[object Object]", "Object");
    ("[object String]", "String");
    ("[object Date]", "Date");
    ("[object Number]", "Number");
    ("[object Function]", "Function");
    ("[object RegExp]", "RegExp");
    ("[object Boolean]", "Boolean");
    ("[object Null]", "Null");
    ("[object Undefined]", "Undefined") ].

(** [Map.prototype.get]: the value, or [undefined]. *)
Definition Map_get (m : list (string * string)) (key : string) : Value :=
  match assoc key m with
  | Some v => VString v
  | None => VUndefined
  end.

(** [detectType] *)
Definition detectType (value : Value) : Value :=
  Map_get TYPE_FOR_TO_STRING (Object_prototype_toString_call value).

(** The descriptor [{ type, isBSON }]. *)
Record TypeDescriptor : Type := { type : Value; isBSON : bool }.

(** [getTypeDescriptorForValue]: [t === 'Object' && value._bsontype] reads
    the property only when the left operand is true. *)
Definition getTypeDescriptorForValue (value : Value) : completion TypeDescriptor :=
  let t := detectType value in
  _bsontype <- (if strict_equals_string t "Object"
                then Get_bsontype value
                else Return (VBool false)) ;;
  Return {| type := if ToBoolean _bsontype then _bsontype else t;
            isBSON := negb (negb (ToBoolean _bsontype)) |}.

(** A table entry applied to a value: the formatter on an instance of its
    class, the unmodelled call on any other receiver. *)
Definition entry `{Collaborators} {A} (name : string) (view : Value -> option A)
    (f : A -> completion string) : Value -> completion Value :=
  fun v =>
    match view v with
    | Some a => s <- f a ;; Return (VString s)
    | None => call_unmodelled name v
    end.

Definition as_Code (v : Value) : option (string * Value) :=
  match v with VBson (BCode c s) => Some (c, s) | _ => None end.
Definition as_ObjectId (v : Value) : option bson.ObjectId :=
  match v with VBson (BObjectId _ o) => Some o | _ => None end.
Definition as_Binary (v : Value) : option bson.Binary :=
  match v with VBson (BBinary b) => Some b | _ => None end.
Definition as_DBRef (v : Value) : option bson.DBRef :=
  match v with VBson (BDBRef r) => Some r | _ => None end.
Definition as_Timestamp (v : Value) : option bson.Long :=
  match v with VBson (BTimestamp t) => Some t | _ => None end.
Definition as_Long (v : Value) : option bson.Long :=
  match v with VBson (BLong l) => Some l | _ => None end.
Definition as_Decimal128 (v : Value) : option bson.Decimal128 :=
  match v with VBson (BDecimal128 d) => Some d | _ => None end.
Definition as_Double (v : Value) : option bson.Double :=
  match v with VBson (BDouble d) => Some d | _ => None end.
Definition as_Int32 (v : Value) : option bson.Int32 :=
  match v with VBson (BInt32 i) => Some i | _ => None end.
Definition as_any (v : Value) : option Value := Some v.
Definition as_Date (v : Value) : option DateObj :=
  match v with VDate d => Some d | _ => None end.
Definition as_RegExp (v : Value) : option RegExpObj :=
  match v with VRegExp r => Some r | _ => None end.

(** [BSON_TO_JS_STRING]: the formatters, then the object literal that
    holds them. *)
Module BSON_TO_JS_STRING.

Definition Code `{Collaborators} (v : string * Value) : completion string :=
  let (code, scope) := v in
  if ToBoolean scope
  then j <- JSON_stringify scope ;; Return ("Code('" ++ code ++ "'," ++ j ++ ")")%string
  else Return ("Code('" ++ code ++ "')")%string.

Definition ObjectID (v : bson.ObjectId) : completion string :=
  Return ("ObjectId('" ++ bson.ObjectId_toString v ++ "')")%string.

Definition ObjectId (v : bson.ObjectId) : completion string :=
  Return ("ObjectId('" ++ bson.ObjectId_toString v ++ "')")%string.

Definition Binary `{Collaborators} (v : bson.Binary) : completion string :=
  let subType := bson.sub_type v in
  if ((subType =? 4)%Z && (List.length (bson.buffer v) =? 16)%nat)%bool
  then
    uuidHex <- try_catch (Binary_toUUID_toString v)
                 (fun ex => Return (bson.Binary_toString_hex v)) ;;
    Return ("UUID('" ++ uuidHex ++ "')")%string
  else
    Return ("BinData(" ++ Encoding.Number_toString16 subType ++ ", '"
            ++ bson.Binary_toString_base64 v ++ "')")%string.

Definition DBRef (v : bson.DBRef) : completion string :=
  match bson.db v with
  | Some d =>
      if negb (String.eqb d "")
      then Return ("DBRef('" ++ bson.namespace v ++ "', ObjectId('"
                   ++ bson.ObjectId_toString (bson.oid v) ++ "'), '" ++ d ++ "')")%string
      else Return ("DBRef('" ++ bson.namespace v ++ "', ObjectId('"
                   ++ bson.ObjectId_toString (bson.oid v) ++ "'))")%string
  | None =>
      Return ("DBRef('" ++ bson.namespace v ++ "', ObjectId('"
              ++ bson.ObjectId_toString (bson.oid v) ++ "'))")%string
  end.

Definition Timestamp (v : bson.Long) : completion string :=
  Return ("Timestamp({ t: " ++ Encoding.Integer_toString (bson.high v) ++ ", i: "
          ++ Encoding.Integer_toString (bson.low v) ++ " })")%string.

Definition Long (v : bson.Long) : completion string :=
  Return ("NumberLong(" ++ bson.Long_toString v ++ ")")%string.

Definition Decimal128 `{Collaborators} (v : bson.Decimal128) : completion string :=
  Return ("NumberDecimal('" ++ Decimal128_toString v ++ "')")%string.

Definition Double `{Collaborators} (v : bson.Double) : completion string :=
  Return ("Double('" ++ Number_toString (bson.double_value v) ++ "')")%string.

Definition Int32 (v : bson.Int32) : completion string :=
  Return ("NumberInt('" ++ Encoding.Integer_toString (bson.int32_value v) ++ "')")%string.

Definition MaxKey (_ : Value) : completion string := Return "MaxKey()".

Definition MinKey (_ : Value) : completion string := Return "MinKey()".

Definition ISODate `{Collaborators} (v : DateObj) : completion string :=
  try_catch
    (iso <- Date_prototype_toISOString v ;; Return ("ISODate('" ++ iso ++ "')")%string)
    (fun ex => Return ("ISODate('" ++ Date_prototype_toString v ++ "')")%string).

Definition Date `{Collaborators} (v : DateObj) : completion string := ISODate v.

Definition RegExp (v : RegExpObj) : completion string :=
  let o := "" in
  let hasOptions := false in
  let '(hasOptions, o) := if global v then (true, o ++ "g")%string else (hasOptions, o) in
  let '(hasOptions, o) := if ignoreCase v then (true, o ++ "i")%string else (hasOptions, o) in
  let '(hasOptions, o) := if multiline v then (true, o ++ "m")%string else (hasOptions, o) in
  Return ("RegExp(" ++ Encoding.JSON_stringify_string (source v)
          ++ (if hasOptions then ", '" ++ o ++ "'" else "") ++ ")")%string.

(** The own properties of the object literal, in source order. *)
Definition own_properties `{Collaborators} : list (string * (Value -> completion Value)) :=
  [ ("Code", entry "Code" as_Code Code);
    ("ObjectID", entry "ObjectID" as_ObjectId ObjectID);
    ("ObjectId", entry "ObjectId" as_ObjectId ObjectId);
    ("Binary", entry "Binary" as_Binary Binary);
    ("DBRef", entry "DBRef" as_DBRef DBRef);
    ("Timestamp", entry "Timestamp" as_Timestamp Timestamp);
    ("Long", entry "Long" as_Long Long);
    ("Decimal128", entry "Decimal128" as_Decimal128 Decimal128);
    ("Double", entry "Double" as_Double Double);
    ("Int32", entry "Int32" as_Int32 Int32);
    ("MaxKey", entry "MaxKey" as_any MaxKey);
    ("MinKey", entry "MinKey" as_any MinKey);
    ("Date", entry "Date" as_Date Date);
    ("ISODate", entry "ISODate" as_Date ISODate);
    ("RegExp", entry "RegExp" as_RegExp RegExp) ].

End BSON_TO_JS_STRING.

(** The callback [toJSString] hands to the structural stringifier. *)
Definition replacer `{Collaborators} : Replacer :=
  fun value indent stringify =>
    t <- getTypeDescriptorForValue value ;;
    key <- ToPropertyKey (type t) ;;
    let toJs := Get BSON_TO_JS_STRING.own_properties key in
    if negb (Property_ToBoolean toJs)
    then stringify value
    else Call toJs value.

(** [toJSString(obj, ind = 2)] *)
Definition toJSString `{Collaborators} (obj : Value) (ind : option Indent) : completion Value :=
  toJavascriptString obj replacer
    (match ind with Some i => i | None => IndentNumber 2 end).

(** [toString]: four spaces of indentation. *)
Definition toString `{Collaborators} (doc : Value) : completion Value :=
  toJSString doc (Some (IndentString "    ")).

(** [toJsonString] *)
Definition toJsonString `{Collaborators} (doc : Value) : completion Value :=
  d <- EJSON_serialize doc ;; EJSON_stringify d.

(** [/ ?\n ? ?/g] *)
Definition newline_and_indent : Regex.regex :=
  Regex.Cat (Regex.Opt (Regex.Chr " "))
    (Regex.Cat (Regex.Chr (ascii_of_N 10))
       (Regex.Cat (Regex.Opt (Regex.Chr " ")) (Regex.Opt (Regex.Chr " ")))).

(** [/ {2,}/g] *)
Definition two_or_more_spaces : Regex.regex := Regex.AtLeast 2 (Regex.Chr " ").

(** [.replace(/ ?\n ? ?/g, '').replace(/ {2,}/g, ' ')] *)
Definition compact (s : string) : string :=
  Regex.replace_all two_or_more_spaces " " (Regex.replace_all newline_and_indent "" s).

(** The receiver of a call of an exported function: the namespace object
    of the module for [bson.stringify(obj)], or else the value of [this],
    which is [undefined] for a detached call [stringify(obj)]. *)
Inductive Receiver : Type :=
| Module_namespace
| Receiver_value (this : Value).

Definition detached : Receiver := Receiver_value VUndefined.

(** [this.toJSString(obj, ind)]: the module's [toJSString] on the
    namespace object; a TypeError on [undefined] and [null], which have no
    properties, and on a value without a function [toJSString]; the
    unmodelled call, on the receiver and the argument, where the receiver
    may hold a function of that name. *)
Definition this_toJSString `{Collaborators} (this : Receiver) (obj : Value)
    (ind : option Indent) : completion Value :=
  match this with
  | Module_namespace => toJSString obj ind
  | Receiver_value VUndefined =>
      Throw (TypeError "Cannot read properties of undefined (reading 'toJSString')")
  | Receiver_value VNull =>
      Throw (TypeError "Cannot read properties of null (reading 'toJSString')")
  | Receiver_value (VObject props) =>
      match assoc "toJSString" props with
      | Some (VFunction _) => call_unmodelled "this.toJSString" (VArray [VObject props; obj])
      | _ => Throw (TypeError "this.toJSString is not a function")
      end
  | Receiver_value (VFunction text) =>
      call_unmodelled "this.toJSString" (VArray [VFunction text; obj])
  | Receiver_value (VHost class) =>
      call_unmodelled "this.toJSString" (VArray [VHost class; obj])
  | Receiver_value _ => Throw (TypeError "this.toJSString is not a function")
  end.

(** [stringify]: [this.toJSString(obj, 1)?.replace(...).replace(...)];
    the optional chain yields [undefined] on [undefined] and [null]. *)
Definition stringify `{Collaborators} (this : Receiver) (obj : Value) : completion Value :=
  r <- this_toJSString this obj (Some (IndentNumber 1)) ;;
  match r with
  | VUndefined | VNull => Return VUndefined
  | VString s => Return (VString (compact s))
  | _ => call_unmodelled "replace" r
  end.

(* ================================================================== *)
(** * The specification's wording, as definitions *)
(* ================================================================== *)

(** The value of the [_bsontype] attribute, [undefined] where a value has
    none. *)
Definition marker (value : Value) : Value :=
  match Get_bsontype value with
  | Return m => m
  | Throw _ => VUndefined
  end.

(** The formatter the table holds for the class of a value: of an
    instance of a library class, of a Date, of a RegExp. *)
Definition formatter_of `{Collaborators} (v : Value) : option (completion string) :=
  match v with
  | VBson (BCode code scope) => Some (BSON_TO_JS_STRING.Code (code, scope))
  | VBson (BObjectId true o) => Some (BSON_TO_JS_STRING.ObjectID o)
  | VBson (BObjectId false o) => Some (BSON_TO_JS_STRING.ObjectId o)
  | VBson (BBinary b) => Some (BSON_TO_JS_STRING.Binary b)
  | VBson (BDBRef r) => Some (BSON_TO_JS_STRING.DBRef r)
  | VBson (BTimestamp t) => Some (BSON_TO_JS_STRING.Timestamp t)
  | VBson (BLong l) => Some (BSON_TO_JS_STRING.Long l)
  | VBson (BDecimal128 d) => Some (BSON_TO_JS_STRING.Decimal128 d)
  | VBson (BDouble d) => Some (BSON_TO_JS_STRING.Double d)
  | VBson (BInt32 i) => Some (BSON_TO_JS_STRING.Int32 i)
  | VBson BMaxKey => Some (BSON_TO_JS_STRING.MaxKey v)
  | VBson BMinKey => Some (BSON_TO_JS_STRING.MinKey v)
  | VDate d => Some (BSON_TO_JS_STRING.Date d)
  | VRegExp r => Some (BSON_TO_JS_STRING.RegExp r)
  | _ => None
  end.

(** The internal classes of the "fixed lookup table". *)
Definition known_class (c : string) : bool :=
  existsb (String.eqb c)
    ["Array"; "Object"; "String"; "Date"; "Number"; "Function"; "RegExp"; "Boolean";
     "Null"; "Undefined"].

(** "the coarse tag": the internal class of the value when the lookup
    table lists it, [undefined] otherwise. *)
Definition coarse_tag (value : Value) : Value :=
  if known_class (class_of value) then VString (class_of value) else VUndefined.

(** "rendered as lowercase hex with no padding": the text denotes the
    number in the digits [0-9a-f] and, unless it is the single digit [0],
    does not start with [0]. *)
Definition lowercase_hex_without_padding (text : string) (n : Z) : Prop :=
  let l := list_ascii_of_string text in
  Encoding.digits_value 16 Encoding.hex_digit_value l = Z.to_N n
  /\ Forall (fun c => digit_or_a_to_f c = true) l
  /\ (l = ["0"%char] \/ exists c rest, l = c :: rest /\ c <> "0"%char).

(** "matches a 24-character hexadecimal pattern" *)
Definition is_hex24 (s : string) : bool :=
  ((String.length s =? 24)%nat
   && forallb Encoding.is_hex_digit (list_ascii_of_string s))%bool.

(** "flags are composed in order global ('g'), ignoreCase ('i'),
    multiline ('m')" *)
Definition flags_in_order (v : RegExpObj) : string :=
  ((if global v then "g" else "") ++ (if ignoreCase v then "i" else "")
   ++ (if multiline v then "m" else ""))%string.

Definition is_whitespace (c : ascii) : bool :=
  (Ascii.eqb c " " || Ascii.eqb c (ascii_of_N 10))%bool.

(** "all generated whitespace and newlines collapsed down to single
    spaces": every maximal run of spaces and newlines becomes one space.
    [in_run] tells that the previous character was whitespace. *)
Fixpoint collapse_runs (in_run : bool) (s : list ascii) : list ascii :=
  match s with
  | [] => []
  | c :: t =>
      if is_whitespace c
      then (if in_run then collapse_runs true t else " "%char :: collapse_runs true t)
      else c :: collapse_runs false t
  end.

Definition collapsed_to_single_spaces (s : string) : string :=
  string_of_list_ascii (collapse_runs false (list_ascii_of_string s)).

(** The input without its leading spaces. *)
Fixpoint drop_spaces (s : list ascii) : list ascii :=
  match s with
  | c :: t => if Ascii.eqb c " " then drop_spaces t else s
  | [] => []
  end.

Definition starts_with_space (s : list ascii) : bool :=
  match s with
  | c :: _ => Ascii.eqb c " "
  | [] => false
  end.

(** Two spaces in a row somewhere in the text. *)
Fixpoint adjacent_spaces (s : list ascii) : bool :=
  match s with
  | a :: t => (Ascii.eqb a " " && starts_with_space t) || adjacent_spaces t
  | [] => false
  end%bool.

(** The property names an object literal inherits from
    [Object.prototype]. *)
Definition Object_prototype_names : list string :=
  ["constructor"; "__defineGetter__"; "__defineSetter__"; "hasOwnProperty";
   "__lookupGetter__"; "__lookupSetter__"; "isPrototypeOf"; "propertyIsEnumerable";
   "toString"; "valueOf"; "toLocaleString"; "__proto__"].

(** [String.prototype.toLowerCase] on the characters of a hexadecimal
    text. *)
Definition String_toLowerCase (s : string) : string :=
  string_of_list_ascii (map ascii_toLowerCase (list_ascii_of_string s)).

(** The values the table has a formatter for: the instances of the
    library classes it lists, Dates and RegExps. *)
Definition formatted_leaf (v : Value) : bool :=
  match v with
  | VBson (BOther _) => false
  | VBson _ | VDate _ | VRegExp _ => true
  | _ => false
  end.

Definition has_newline (s : list ascii) : bool :=
  existsb (Ascii.eqb (ascii_of_N 10)) s.

Definition whitespace_free (s : list ascii) : bool :=
  forallb (fun c => negb (is_whitespace c)) s.

Fixpoint ends_with_space (s : list ascii) : bool :=
  match s with
  | [] => false
  | c :: t =>
      match t with
      | [] => Ascii.eqb c " "
      | _ :: _ => ends_with_space t
      end
  end.

(** A text the two replacements of [stringify] have nothing to do on. *)
Definition tidy (s : string) : Prop :=
  has_newline (list_ascii_of_string s) = false
  /\ adjacent_spaces (list_ascii_of_string s) = false.

(** The library instances whose rendering is made of digits, letters of
    an encoding and fixed punctuation. *)
Definition encoded_leaf (b : BsonValue) : bool :=
  match b with
  | BObjectId _ _ | BTimestamp _ | BLong _ | BInt32 _ | BMaxKey | BMinKey => true
  | BBinary v =>
      negb ((bson.sub_type v =? 4)%Z && (List.length (bson.buffer v) =? 16)%nat)
  | _ => false
  end.

(** The halves of a Long as the library keeps them: signed 32-bit
    integers. *)
Definition int32 (z : Z) : Prop := (- 2 ^ 31 <= z < 2 ^ 31)%Z.

Definition Long_well_formed (l : bson.Long) : Prop :=
  int32 (bson.low l) /\ int32 (bson.high l).

(** A tag has an entry in the formatter table. *)
Definition has_entry `{Collaborators} (tag : string) : bool :=
  match assoc tag BSON_TO_JS_STRING.own_properties with
  | Some _ => true
  | None => false
  end.

(** A tag that is no property of the table, own or inherited. *)
Definition unlisted_tag `{Collaborators} (tag : string) : bool :=
  negb (has_entry tag) && negb (existsb (String.eqb tag) Object_prototype_names).

(** The values of a document as the module is written for them: every
    primitive, array, function, Date and RegExp; an instance of a library
    class (of another class than the table's, with a tag that is no
    property of the table; a Code with a scope, when [JSON.stringify]
    returns on it); an object without marker, with a falsy one, or with a
    string tag that is no property of the table; an object of another
    class that does not pass for a Date or a RegExp. *)
Definition regular `{Collaborators} (v : Value) : bool :=
  match v with
  | VObject props =>
      match assoc "_bsontype" props with
      | None => true
      | Some (VString tag) => String.eqb tag "" || unlisted_tag tag
      | Some m => negb (ToBoolean m)
      end
  | VHost class => negb (String.eqb class "Date" || String.eqb class "RegExp")
  | VBson (BCode _ scope) =>
      negb (ToBoolean scope)
      || match JSON_stringify scope with Return _ => true | Throw _ => false end
  | VBson (BOther tag) => String.eqb tag "" || unlisted_tag tag
  | _ => true
  end.

(* ================================================================== *)
(** * A reference instance of the collaborators, to run the module *)
(* ================================================================== *)

Module Reference.

(** A parser that accepts four literals and rejects every other text with
    a SyntaxError. *)
Definition parser (s : string) : completion Value :=
  if String.eqb s "null" then Return VNull
  else if String.eqb s "true" then Return (VBool true)
  else if String.eqb s "false" then Return (VBool false)
  else if String.eqb s "{}" then Return (VObject [])
  else Throw (SyntaxError "Unexpected token").

(** [Binary.prototype.toUUID] succeeds on subtype 4 with a payload of 16
    bytes; the text is the payload in hexadecimal, grouped 8-4-4-4-12. *)
Definition Binary_toUUID_toString (v : bson.Binary) : completion string :=
  if ((bson.sub_type v =? 4)%Z && (List.length (bson.payload v) =? 16)%nat)%bool
  then
    let h := bson.Binary_toString_hex v in
    Return (substring 0 8 h ++ "-" ++ substring 8 4 h ++ "-" ++ substring 12 4 h
            ++ "-" ++ substring 16 4 h ++ "-" ++ substring 20 12 h)%string
  else Throw (LibraryError "Binary sub_type is not UUID or the payload is not 16 bytes").

(** Number::toString on the doubles with an integral value; of any other
    finite double, the text of its integral part. *)
Definition Number_toString (x : float) : string :=
  match FloatOps.Prim2SF x with
  | SpecFloat.S754_zero _ => "0"
  | SpecFloat.S754_infinity false => "Infinity"
  | SpecFloat.S754_infinity true => "-Infinity"
  | SpecFloat.S754_nan => "NaN"
  | SpecFloat.S754_finite s m e =>
      let z := (if (0 <=? e)%Z then Zpos m * 2 ^ e else Zpos m / 2 ^ (- e))%Z in
      Encoding.Integer_toString (if s then (- z)%Z else z)
  end.

Definition join (sep : string) (l : list string) : string :=
  match l with
  | [] => ""
  | x :: rest => fold_left (fun acc y => acc ++ sep ++ y)%string rest x
  end.

Definition eol : string := String (ascii_of_N 10) "".

(** [value.split("\n").join("\n" + indent)] *)
Fixpoint reindent (indent : string) (s : string) : string :=
  match s with
  | EmptyString => EmptyString
  | String c t =>
      if Ascii.eqb c (ascii_of_N 10)
      then (String c indent ++ reindent indent t)%string
      else String c (reindent indent t)
  end.

Definition quoteString (s : string) : string :=
  let esc c :=
    if Ascii.eqb c "'" then [Encoding.backslash; c]
    else if Ascii.eqb c Encoding.backslash then [Encoding.backslash; c]
    else if Ascii.eqb c (ascii_of_N 10) then [Encoding.backslash; "n"%char]
    else [c] in
  ("'" ++ string_of_list_ascii (flat_map esc (list_ascii_of_string s)) ++ "'")%string.

Definition is_identifier (k : string) : bool :=
  let letter n := (((65 <=? n) && (n <=? 90)) || ((97 <=? n) && (n <=? 122))
                   || (n =? 95) || (n =? 36))%N in
  let digit n := ((48 <=? n) && (n <=? 57))%N in
  match list_ascii_of_string k with
  | [] => false
  | c :: t => letter (N_of_ascii c)
              && forallb (fun x => letter (N_of_ascii x) || digit (N_of_ascii x)) t
  end.

Definition quoteKey (k : string) : string :=
  if is_identifier k then k else quoteString k.

Section Stringifier.

Variable rep : Replacer.
Variable indent : string.

Definition not_a_string : JsError := TypeError "value.split is not a function".

(** The entries of an object: a child rendered as [undefined] is left
    out. *)
Fixpoint object_entries (next : Value -> completion Value) (props : list (string * Value))
  : completion (list string) :=
  match props with
  | [] => Return []
  | (k, v) :: rest =>
      r <- next v ;;
      match r with
      | VUndefined => object_entries next rest
      | VString s =>
          rs <- object_entries next rest ;;
          Return ((indent ++ quoteKey k ++ ":"
                   ++ (if String.eqb indent "" then "" else " ")
                   ++ reindent indent s)%string :: rs)
      | _ => Throw not_a_string
      end
  end.

Fixpoint array_items (next : Value -> completion Value) (items : list Value)
  : completion (list string) :=
  match items with
  | [] => Return []
  | v :: rest =>
      r <- next v ;;
      match r with
      | VUndefined => rs <- array_items next rest ;; Return ("undefined" :: rs)
      | VString s =>
          rs <- array_items next rest ;;
          Return ((indent ++ reindent indent s)%string :: rs)
      | _ => Throw not_a_string
      end
  end.

Definition flags_text (r : RegExpObj) : string :=
  ((if global r then "g" else "") ++ (if ignoreCase r then "i" else "")
   ++ (if multiline r then "m" else ""))%string.

(** The generic rendering of a value, to the given depth; children go
    through the replacer again. *)
Fixpoint generic (depth : nat) (v : Value) : completion Value :=
  match depth with
  | O => Return VUndefined
  | S d =>
      let next := fun child => rep child indent (generic d) in
      let nl := if String.eqb indent "" then "" else eol in
      match v with
      | VUndefined => Return (VString "undefined")
      | VNull => Return (VString "null")
      | VBool true => Return (VString "true")
      | VBool false => Return (VString "false")
      | VNumber x => Return (VString (Number_toString x))
      | VString s => Return (VString (quoteString s))
      | VArray items =>
          rs <- array_items next items ;;
          let values := join ("," ++ nl) rs in
          let e := if String.eqb values "" then "" else nl in
          Return (VString ("[" ++ e ++ values ++ e ++ "]"))
      | VObject props =>
          rs <- object_entries next props ;;
          let values := join ("," ++ nl) rs in
          if String.eqb values "" then Return (VString "{}")
          else Return (VString ("{" ++ nl ++ values ++ nl ++ "}"))
      | VDate d =>
          Return (VString ("new Date("
                           ++ match time_value d with
                              | Some t => Encoding.Integer_toString t
                              | None => "NaN"
                              end ++ ")"))
      | VRegExp r => Return (VString ("/" ++ source r ++ "/" ++ flags_text r))
      | VFunction text => Return (VString text)
      (* objects without modelled enumerable properties *)
      | VHost _ => Return (VString "{}")
      | VBson _ => Return (VString "{}")
      end
  end%string.

End Stringifier.

(** [stringify(value, replacer, indent)]: the replacer is called on the
    root, with the generic rendering as its callback; the depth limit is
    the package's default. *)
Definition toJavascriptString (value : Value) (rep : Replacer) (ind : Indent)
  : completion Value :=
  let space :=
    match ind with
    | IndentNumber n => string_of_list_ascii (repeat " "%char n)
    | IndentString s => s
    end in
  rep value space (generic rep space 100).

(** The conversions the examples do not exercise answer with a fixed
    text or a LibraryError. *)
Definition collaborators : Collaborators :=
  Build_Collaborators
    parser
    toJavascriptString
    (fun v => Return v)
    (fun v => generic (fun value _ k => k value) "" 100 v)
    false
    Binary_toUUID_toString
    (fun d => Encoding.toHex (bson.bytes d))
    Number_toString
    Encoding.Integer_toString
    Encoding.Integer_toString
    (fun _ => Throw (LibraryError "JSON.stringify: not provided"))
    (fun _ => Return "[object Object]")
    (fun _ _ => Throw (LibraryError "not provided")).

End Reference.

(* ================================================================== *)
(** * Example values *)
(* ================================================================== *)

Module Examples.

Definition malformed : string := "{ not: valid".

Definition hex_id : string := "507f1f77bcf86cd799439011".

Definition one : Value := VObject [("a", VNumber 1)].

Definition rendering_of_one : string :=
  ("{" ++ Reference.eol ++ " a: 1" ++ Reference.eol ++ "}")%string.

Definition uuid_bytes : list Byte.byte :=
  [Byte.x12; Byte.x3e; Byte.x45; Byte.x67; Byte.xe8; Byte.x9b; Byte.x12; Byte.xd3;
   Byte.xa4; Byte.x56; Byte.x42; Byte.x66; Byte.x14; Byte.x17; Byte.x40; Byte.x00].

Definition uuid : bson.Binary :=
  {| bson.sub_type := 4; bson.buffer := uuid_bytes; bson.position := 16 |}.

Definition short_uuid : bson.Binary :=
  {| bson.sub_type := 4; bson.buffer := uuid_bytes; bson.position := 2 |}.

Definition blob : bson.Binary :=
  {| bson.sub_type := 128; bson.buffer := [Byte.x4d; Byte.x61; Byte.x6e]; bson.position := 3 |}.

Definition tagged (tag : string) : Value := VObject [("_bsontype", VString tag)].

Definition bytes_of (s : string) : list Byte.byte :=
  map byte_of_ascii (list_ascii_of_string s).

Definition long (n : Z) : Value :=
  VBson (BLong {| bson.low := n; bson.high := 0; bson.unsigned := false |}).

(** [{a: ObjectId('507f1f77bcf86cd799439011'), b: [1, NumberLong(2)]}] *)
Definition nested : Value :=
  VObject [("a", VBson (BObjectId false (bson.ObjectId_fromHex hex_id)));
           ("b", VArray [VNumber 1; long 2])].

Definition invalid_date : DateObj := {| time_value := None |}.

Definition timestamp : bson.Long :=
  {| bson.low := 7; bson.high := 1700000000; bson.unsigned := true |}.

Definition minus_two : bson.Long :=
  {| bson.low := -2; bson.high := -1; bson.unsigned := false |}.

(** The callback of a stringifier that renders nothing. *)
Definition silent : Stringify := fun _ => Return VUndefined.

End Examples.

(* ================================================================== *)
(** * Properties *)
(* ================================================================== *)

(** ** The matcher on the module's patterns *)

Lemma run_times_class (p : ascii -> bool) (n : nat) (s : list ascii) :
  Regex.run (Regex.Times n (Regex.Cls p)) s
  = if ((n <=? List.length s)%nat && forallb p (firstn n s))%bool
    then [skipn n s] else [].
Proof.
  simpl. revert s. induction n as [|k IH]; intros s.
  - reflexivity.
  - destruct s as [|x t]; [reflexivity|].
    cbn [Regex.times flat_map Regex.run]. destruct (p x) eqn:Hp.
    + cbn [flat_map]. rewrite app_nil_r, IH. cbn [firstn forallb skipn List.length].
      rewrite Hp. reflexivity.
    + cbn [firstn forallb]. rewrite Hp, andb_false_r. reflexivity.
Qed.

Lemma hex_class_ignoring_case (c : ascii) :
  ignoring_case digit_or_a_to_f c = Encoding.is_hex_digit c.
Proof.
  destruct c as [[] [] [] [] [] [] [] []]; reflexivity.
Qed.

Lemma forallb_ext_eq {A} (f g : A -> bool) (l : list A) :
  (forall a, f a = g a) -> forallb f l = forallb g l.
Proof.
  intros E. induction l as [|a l IH]; simpl; [reflexivity|]. now rewrite E, IH.
Qed.

Lemma length_list_ascii (s : string) :
  List.length (list_ascii_of_string s) = String.length s.
Proof.
  induction s as [|c s IH]; simpl; [reflexivity|]. now rewrite IH.
Qed.

(** The pattern of [parseObjectId] accepts exactly the strings of 24
    hexadecimal digits. *)
Lemma test_hex24 (s : string) : Regex.test_anchored hex24 s = is_hex24 s.
Proof.
  unfold Regex.test_anchored, hex24, is_hex24. rewrite run_times_class.
  rewrite (forallb_ext_eq _ _ _ hex_class_ignoring_case).
  rewrite <- length_list_ascii.
  set (l := list_ascii_of_string s).
  destruct (Nat.leb_spec 24 (List.length l)) as [Hle|Hlt].
  - destruct (Nat.eqb_spec (List.length l) 24) as [He|Hne].
    + rewrite firstn_all2 by lia. cbn [andb].
      destruct (forallb Encoding.is_hex_digit l); [|reflexivity].
      cbn [existsb]. rewrite skipn_all2 by lia. reflexivity.
    + cbn [andb]. destruct (forallb Encoding.is_hex_digit (firstn 24 l)); [|reflexivity].
      cbn [existsb]. destruct (skipn 24 l) eqn:Hs; [|reflexivity].
      exfalso. apply (f_equal (@List.length ascii)) in Hs.
      rewrite length_skipn in Hs. simpl in Hs. lia.
  - cbn [andb existsb]. destruct (Nat.eqb_spec (List.length l) 24); [lia|reflexivity].
Qed.

(** ** The two replacements of [stringify] *)

Lemma replace_scan_In (r : Regex.regex) (repl : list ascii) (c : ascii) (s : list ascii)
    (k : nat) :
  In c (Regex.replace_scan r repl k s) -> In c repl \/ In c s.
Proof.
  revert k. induction s as [|x t IH]; intros k; cbn [Regex.replace_scan].
  - destruct k; [|contradiction]. destruct (Regex.run r []); [contradiction|auto].
  - destruct k as [|k].
    + destruct (Regex.run r (x :: t)) as [|rest ?].
      * intros [<-|H]; [right; now left|]. destruct (IH _ H); [auto|right; now right].
      * destruct (List.length (x :: t) - List.length rest)%nat.
        -- rewrite in_app_iff. intros [H|[<-|H]]; [auto|right; now left|].
           destruct (IH _ H); [auto|right; now right].
        -- rewrite in_app_iff. intros [H|H]; [auto|].
           destruct (IH _ H); [auto|right; now right].
    + intros H. destruct (IH _ H); [auto|right; now right].
Qed.

Lemma replace_scan_skip (r : Regex.regex) (repl : list ascii) (s : list ascii) (k : nat) :
  (k <= List.length s)%nat ->
  Regex.replace_scan r repl k s = Regex.replace_scan r repl 0 (skipn k s).
Proof.
  revert k. induction s as [|x t IH]; intros [|k] Hk; try reflexivity.
  - cbn in Hk. lia.
  - cbn [Regex.replace_scan skipn]. apply IH. cbn in Hk. lia.
Qed.

Lemma run_Chr_shorter (c : ascii) (s rest : list ascii) :
  In rest (Regex.run (Regex.Chr c) s) -> (List.length rest < List.length s)%nat.
Proof.
  destruct s as [|x t]; cbn; [contradiction|].
  destruct (Ascii.eqb x c); cbn; [|contradiction]. intros [<-|[]]. lia.
Qed.

Lemma run_Opt_Chr_shorter (c : ascii) (s rest : list ascii) :
  In rest (Regex.run (Regex.Opt (Regex.Chr c)) s) ->
  (List.length rest <= List.length s)%nat.
Proof.
  cbn [Regex.run]. rewrite in_app_iff. intros [H|[<-|[]]]; [|lia].
  apply run_Chr_shorter in H. lia.
Qed.

(** A match of [/ ?\n ? ?/] is never empty, and there is one wherever a
    newline stands. *)
Lemma run_newline_and_indent_shorter (s rest : list ascii) :
  In rest (Regex.run newline_and_indent s) -> (List.length rest < List.length s)%nat.
Proof.
  unfold newline_and_indent. cbn [Regex.run].
  intros H. apply in_flat_map in H as (s1 & H1 & H).
  apply in_flat_map in H as (s2 & H2 & H).
  apply in_flat_map in H as (s3 & H3 & H).
  change (In s1 (Regex.run (Regex.Opt (Regex.Chr " ")) s)) in H1.
  change (In s2 (Regex.run (Regex.Chr (ascii_of_N 10)) s1)) in H2.
  change (In s3 (Regex.run (Regex.Opt (Regex.Chr " ")) s2)) in H3.
  change (In rest (Regex.run (Regex.Opt (Regex.Chr " ")) s3)) in H.
  apply run_Opt_Chr_shorter in H1, H3, H. apply run_Chr_shorter in H2. lia.
Qed.

Lemma run_newline_and_indent_at_newline (t : list ascii) :
  Regex.run newline_and_indent (ascii_of_N 10 :: t) <> [].
Proof.
  unfold newline_and_indent.
  destruct t as [|x [|y t]]; cbn;
    repeat match goal with
           | |- context [Ascii.eqb ?a " "] => destruct (Ascii.eqb a " "); cbn
           end; discriminate.
Qed.

Lemma scan_newline_and_indent (s : list ascii) (k : nat) :
  ~ In (ascii_of_N 10) (Regex.replace_scan newline_and_indent [] k s).
Proof.
  revert k. induction s as [|x t IH]; intros k; cbn [Regex.replace_scan].
  - destruct k; [|auto]. destruct (Regex.run newline_and_indent []); auto.
  - destruct k as [|k]; [|apply IH].
    destruct (Regex.run newline_and_indent (x :: t)) as [|rest l] eqn:E.
    + intros [->|H]; [|now apply IH in H].
      now apply run_newline_and_indent_at_newline in E.
    + assert (Hlt : (List.length rest < List.length (x :: t))%nat)
        by (apply run_newline_and_indent_shorter; rewrite E; now left).
      destruct (List.length (x :: t) - List.length rest)%nat eqn:En; [lia|].
      cbn [app]. apply IH.
Qed.

Lemma drop_spaces_length (l : list ascii) :
  (List.length (drop_spaces l) <= List.length l)%nat.
Proof.
  induction l as [|c t IH]; cbn; [lia|]. destruct (Ascii.eqb c " "); cbn; lia.
Qed.

Lemma drop_spaces_skipn (l : list ascii) :
  skipn (List.length l - List.length (drop_spaces l)) l = drop_spaces l.
Proof.
  induction l as [|c t IH]; [reflexivity|]. cbn [drop_spaces].
  destruct (Ascii.eqb c " ").
  - pose proof (drop_spaces_length t).
    replace (List.length (c :: t) - List.length (drop_spaces t))%nat
      with (S (List.length t - List.length (drop_spaces t)))
      by (cbn [List.length]; lia).
    exact IH.
  - now rewrite Nat.sub_diag.
Qed.

Lemma drop_spaces_start (l : list ascii) : starts_with_space (drop_spaces l) = false.
Proof.
  induction l as [|c t IH]; [reflexivity|]. cbn [drop_spaces].
  destruct (Ascii.eqb c " ") eqn:E; [exact IH|exact E].
Qed.

(** The greedy repetition of a space takes every leading space first. *)
Lemma star_spaces (fuel : nat) (s : list ascii) :
  (List.length s <= fuel)%nat ->
  exists l, Regex.star (Regex.run (Regex.Chr " ")) fuel s = drop_spaces s :: l.
Proof.
  revert s. induction fuel as [|f IH]; intros s Hlen.
  - destruct s; [|cbn in Hlen; lia]. now exists [].
  - cbn [Regex.star]. destruct s as [|x t]; [now exists []|].
    change (Regex.run (Regex.Chr " ") (x :: t))
      with (if Ascii.eqb x " " then [t] else []).
    cbn [drop_spaces]. destruct (Ascii.eqb x " ").
    + cbn [flat_map]. replace (List.length t <? List.length (x :: t))%nat with true
        by (symmetry; apply Nat.ltb_lt; cbn; lia).
      destruct (IH t) as [l E]; [cbn in Hlen; lia|]. rewrite E.
      eexists. reflexivity.
    + now exists [].
Qed.

Lemma times_two_spaces (s : list ascii) :
  Regex.times (Regex.run (Regex.Chr " ")) 2 s
  = match s with
    | a :: b :: t => if (Ascii.eqb a " " && Ascii.eqb b " ")%bool then [t] else []
    | _ => []
    end.
Proof.
  destruct s as [|a [|b t]]; cbn; try reflexivity.
  - destruct (Ascii.eqb a " "); reflexivity.
  - destruct (Ascii.eqb a " "); cbn; [|reflexivity].
    destruct (Ascii.eqb b " "); reflexivity.
Qed.

(** [/ {2,}/] matches where two spaces stand, up to the next character
    that is not a space. *)
Lemma run_two_or_more_spaces (s : list ascii) :
  (exists t l, s = " "%char :: " "%char :: t
               /\ Regex.run two_or_more_spaces s = drop_spaces t :: l)
  \/ (Regex.run two_or_more_spaces s = []
      /\ (starts_with_space s && starts_with_space (tl s))%bool = false).
Proof.
  unfold two_or_more_spaces. cbn [Regex.run]. rewrite times_two_spaces.
  destruct s as [|a [|b t]]; cbn [starts_with_space tl].
  - now right.
  - right. now rewrite andb_false_r.
  - destruct (Ascii.eqb_spec a " ") as [->|]; cbn [andb]; [|now right].
    destruct (Ascii.eqb_spec b " ") as [->|]; [|now right].
    left. destruct (star_spaces (List.length t) t) as [l E]; [lia|].
    exists t, l. cbn [flat_map]. split; [reflexivity|]. rewrite app_nil_r. exact E.
Qed.

Lemma scan_two_or_more_spaces (n : nat) (s : list ascii) :
  (List.length s <= n)%nat ->
  adjacent_spaces (Regex.replace_scan two_or_more_spaces [" "%char] 0 s) = false
  /\ (starts_with_space (Regex.replace_scan two_or_more_spaces [" "%char] 0 s) = true ->
      starts_with_space s = true).
Proof.
  revert s. induction n as [|n IH]; intros s Hlen.
  - destruct s; [|cbn in Hlen; lia]. cbn. split; [reflexivity|discriminate].
  - destruct s as [|c t]; [cbn; split; [reflexivity|discriminate]|].
    cbn [Regex.replace_scan].
    destruct (run_two_or_more_spaces (c :: t)) as [(t2 & l & Es & Er)|[Er Hs]].
    + rewrite Er. injection Es as -> ->.
      pose proof (drop_spaces_length t2) as Hd.
      replace (List.length (" "%char :: " "%char :: t2) - List.length (drop_spaces t2))%nat
        with (S (S (List.length t2 - List.length (drop_spaces t2))))
        by (cbn [List.length]; lia).
      rewrite replace_scan_skip by (cbn [List.length]; lia). cbn [skipn app].
      rewrite drop_spaces_skipn.
      destruct (IH (drop_spaces t2)) as [IH1 IH2]; [cbn in Hlen; lia|].
      split; [|reflexivity].
      cbn [adjacent_spaces]. rewrite IH1, orb_false_r. cbn.
      destruct (starts_with_space _) eqn:E; [|reflexivity].
      now rewrite drop_spaces_start in IH2; specialize (IH2 eq_refl).
    + rewrite Er. destruct (IH t) as [IH1 IH2]; [cbn in Hlen; lia|].
      cbn [adjacent_spaces starts_with_space]. rewrite IH1, orb_false_r.
      split; [|auto]. cbn [starts_with_space tl] in Hs.
      destruct (Ascii.eqb c " "); [|reflexivity]. cbn in Hs |- *.
      destruct (starts_with_space (Regex.replace_scan _ _ 0 t)); [|reflexivity].
      now rewrite IH2 in Hs.
Qed.

(** What [stringify] makes of a text has no newline and no two spaces in
    a row. *)
Lemma compact_shape (text : string) :
  ~ In (ascii_of_N 10) (list_ascii_of_string (compact text))
  /\ adjacent_spaces (list_ascii_of_string (compact text)) = false.
Proof.
  unfold compact, Regex.replace_all. rewrite !list_ascii_of_string_of_list_ascii.
  split.
  - intros H. apply replace_scan_In in H as [[H|[]]|H]; [discriminate H|].
    now apply scan_newline_and_indent in H.
  - now apply (scan_two_or_more_spaces _ _ (Nat.le_refl _)).
Qed.

(** ** The encodings *)

Section Digits.

Import Encoding.

Variable base : N.
Variable digit : N -> ascii.
Variable value : ascii -> N.
Hypothesis base_ge_2 : (2 <= base)%N.
Hypothesis value_digit : forall d, (d < base)%N -> value (digit d) = d.

Lemma digits_app (fuel : nat) (n : N) (acc : list ascii) :
  digits base digit fuel n acc = digits base digit fuel n [] ++ acc.
Proof.
  revert n acc. induction fuel as [|f IH]; intros n acc; cbn [digits].
  - reflexivity.
  - destruct (n <? base)%N; [reflexivity|].
    rewrite IH, (IH _ [_]), <- app_assoc. reflexivity.
Qed.

Lemma digits_value_snoc (l : list ascii) (c : ascii) :
  digits_value base value (l ++ [c]) = (base * digits_value base value l + value c)%N.
Proof.
  unfold digits_value. rewrite fold_left_app. reflexivity.
Qed.

(** Reading the digits back gives the number. *)
Lemma digits_value_digits (fuel : nat) (n : N) :
  (n < base ^ N.of_nat fuel)%N ->
  digits_value base value (digits base digit fuel n []) = n.
Proof.
  revert n. induction fuel as [|f IH]; intros n Hn.
  - cbn in Hn. cbn. lia.
  - cbn [digits]. assert (Hb : (base <> 0)%N) by lia.
    pose proof (N.mod_lt n base Hb) as Hmod.
    destruct (N.ltb_spec n base) as [Hlt|Hge].
    + cbn. rewrite value_digit by exact Hmod. rewrite N.mod_small by exact Hlt. lia.
    + rewrite digits_app, digits_value_snoc, IH, value_digit by
        (try exact Hmod; apply N.Div0.div_lt_upper_bound;
         rewrite Nat2N.inj_succ, N.pow_succ_r' in Hn; exact Hn).
      symmetry. apply N.div_mod. exact Hb.
Qed.

Lemma fuel_suffices (n : N) : (n < base ^ N.of_nat (S (N.to_nat (N.log2 n))))%N.
Proof.
  rewrite Nat2N.inj_succ, N2Nat.id.
  apply N.lt_le_trans with (2 ^ N.succ (N.log2 n))%N.
  - destruct n as [|p]; [reflexivity|]. apply N.log2_spec. reflexivity.
  - apply N.pow_le_mono_l. exact base_ge_2.
Qed.

(** The text has no padding: a positive number starts with the digit of
    a positive value. *)
Lemma digits_head (fuel : nat) (n : N) :
  (0 < n)%N -> (n < base ^ N.of_nat fuel)%N ->
  exists d rest, (0 < d < base)%N /\ digits base digit fuel n [] = digit d :: rest.
Proof.
  revert n. induction fuel as [|f IH]; intros n Hpos Hn.
  - cbn in Hn. lia.
  - cbn [digits]. assert (Hb : (base <> 0)%N) by lia.
    destruct (N.ltb_spec n base) as [Hlt|Hge].
    + exists n, []. rewrite N.mod_small by exact Hlt. split; [lia|reflexivity].
    + destruct (IH (n / base)%N) as (d & rest & Hd & E).
      * apply N.div_str_pos. lia.
      * apply N.Div0.div_lt_upper_bound.
        rewrite Nat2N.inj_succ, N.pow_succ_r' in Hn. exact Hn.
      * exists d, (rest ++ [digit (n mod base)%N]).
        rewrite digits_app, E. split; [exact Hd|reflexivity].
Qed.

(** Every character of the text is a digit of the base. *)
Lemma digits_are_digits (fuel : nat) (n : N) (acc : list ascii) (P : ascii -> Prop) :
  (forall d, (d < base)%N -> P (digit d)) -> Forall P acc ->
  Forall P (digits base digit fuel n acc).
Proof.
  intros Hd. revert n acc. induction fuel as [|f IH]; intros n acc Hacc; cbn [digits].
  - exact Hacc.
  - assert (P (digit (n mod base)%N)) by (apply Hd, N.mod_lt; lia).
    destruct (n <? base)%N; [|apply IH]; constructor; assumption.
Qed.

End Digits.

Lemma below_16 (d : N) :
  (d < 16)%N ->
  In d [0; 1; 2; 3; 4; 5; 6; 7; 8; 9; 10; 11; 12; 13; 14; 15]%N.
Proof.
  intros H. cbn [In].
  destruct d as [|p]; [now left|]. right.
  do 15 (destruct p as [p|p|]; cbn in H; try lia; auto 20).
Qed.

Lemma hex_digit_value_digit (d : N) :
  (d < 16)%N -> Encoding.hex_digit_value (Encoding.hex_digit d) = d.
Proof.
  intros H. apply below_16 in H. cbn [In] in H.
  repeat (destruct H as [<-|H]; [reflexivity|]). contradiction.
Qed.

Lemma hex_digit_lowercase (d : N) :
  (d < 16)%N -> digit_or_a_to_f (Encoding.hex_digit d) = true.
Proof.
  intros H. apply below_16 in H. cbn [In] in H.
  repeat (destruct H as [<-|H]; [reflexivity|]). contradiction.
Qed.

Lemma hex_digit_positive (d : N) :
  (0 < d < 16)%N -> Encoding.hex_digit d <> "0"%char.
Proof.
  intros [Hpos H]. apply below_16 in H. cbn [In] in H.
  destruct H as [<-|H]; [lia|].
  repeat (destruct H as [<-|H]; [discriminate|]). contradiction.
Qed.

Lemma dec_digit_value_digit (d : N) :
  (d < 10)%N -> Encoding.dec_digit_value (Encoding.dec_digit d) = d.
Proof.
  intros H. assert (H16 : (d < 16)%N) by lia. apply below_16 in H16. cbn [In] in H16.
  repeat (destruct H16 as [<-|H16]; [try reflexivity; lia|]). contradiction.
Qed.

(** [toString(16)] of a subtype, as the formatter calls it. *)
Lemma Number_toString16_faithful (z : Z) :
  (0 <= z)%Z -> lowercase_hex_without_padding (Encoding.Number_toString16 z) z.
Proof.
  intros Hz. unfold lowercase_hex_without_padding, Encoding.Number_toString16.
  destruct (Z.ltb_spec z 0) as [?|_]; [lia|].
  unfold Encoding.N_toString. rewrite list_ascii_of_string_of_list_ascii.
  assert (H2 : (2 <= 16)%N) by lia.
  pose proof (fuel_suffices 16 H2 (Z.to_N z)) as Hfuel.
  split; [|split].
  - apply digits_value_digits; [exact H2 | exact hex_digit_value_digit | exact Hfuel].
  - apply digits_are_digits; [lia | exact hex_digit_lowercase | constructor].
  - destruct (Z.eq_dec z 0) as [->|Hne]; [left; reflexivity|right].
    destruct (digits_head 16 Encoding.hex_digit H2
                (S (N.to_nat (N.log2 (Z.to_N z)))) (Z.to_N z)) as (d & rest & Hd & E);
      [lia | exact Hfuel |].
    exists (Encoding.hex_digit d), rest. split; [exact E|]. now apply hex_digit_positive.
Qed.

(** The decimal text of a natural number denotes it. *)
Lemma Integer_toString_faithful (z : Z) :
  (0 <= z)%Z ->
  Encoding.digits_value 10 Encoding.dec_digit_value
    (list_ascii_of_string (Encoding.Integer_toString z)) = Z.to_N z
  /\ Encoding.Integer_toString (- z - 1)
     = ("-" ++ Encoding.Integer_toString (z + 1))%string.
Proof.
  intros Hz. unfold Encoding.Integer_toString.
  destruct (Z.ltb_spec z 0) as [?|_]; [lia|].
  destruct (Z.ltb_spec (- z - 1) 0) as [_|?]; [|lia].
  destruct (Z.ltb_spec (z + 1) 0) as [?|_]; [lia|].
  split.
  - unfold Encoding.N_toString. rewrite list_ascii_of_string_of_list_ascii.
    assert (H2 : (2 <= 10)%N) by lia.
    apply digits_value_digits;
      [exact H2 | exact dec_digit_value_digit | apply fuel_suffices; exact H2].
  - do 3 f_equal. lia.
Qed.

(** [toString('hex')] writes two digits per byte, and [Buffer.from(…,
    'hex')] reads them back. *)
Lemma fromHex_toHex (bs : list Byte.byte) :
  Encoding.fromHex (Encoding.toHex bs) = bs
  /\ String.length (Encoding.toHex bs) = (2 * List.length bs)%nat.
Proof.
  unfold Encoding.fromHex, Encoding.toHex.
  rewrite <- length_list_ascii, list_ascii_of_string_of_list_ascii.
  induction bs as [|b bs [IH1 IH2]]; [split; reflexivity|].
  cbn [flat_map]. split.
  - transitivity (b :: Encoding.fromHex_list (flat_map Encoding.byte_hex bs));
      [|now rewrite IH1].
    generalize (flat_map Encoding.byte_hex bs) as rest. intros rest.
    destruct b; reflexivity.
  - rewrite length_app, IH2. cbn. lia.
Qed.

(** Reading a pair of hexadecimal digits and writing the byte back gives
    the pair in lowercase. *)
Lemma hex_value_lowercase (c : ascii) (h : N) :
  Encoding.hex_value c = Some h ->
  (h < 16)%N /\ Encoding.hex_digit h = ascii_toLowerCase c.
Proof.
  destruct c as [[] [] [] [] [] [] [] []]; cbn; intros [= <-] || discriminate;
    split; reflexivity.
Qed.

Lemma byte_hex_of_digits (h l : N) :
  (h < 16)%N -> (l < 16)%N ->
  Encoding.byte_hex (Encoding.byte_of_N (16 * h + l))
  = [Encoding.hex_digit h; Encoding.hex_digit l].
Proof.
  intros Hh Hl. unfold Encoding.byte_hex, Encoding.byte_of_N.
  destruct (Byte.of_N (16 * h + l)) as [b|] eqn:E.
  - apply Strings.Byte.to_of_N in E. rewrite E.
    replace ((16 * h + l) / 16)%N with h.
    + replace ((16 * h + l) mod 16)%N with l; [reflexivity|].
      rewrite N.add_comm, N.mul_comm, N.Div0.mod_add. symmetry. now apply N.mod_small.
    + rewrite N.add_comm, N.mul_comm, N.div_add by lia.
      rewrite N.div_small by exact Hl. reflexivity.
  - apply Strings.Byte.of_N_None_iff in E. lia.
Qed.

Lemma toHex_fromHex_list (s : list ascii) :
  Nat.even (List.length s) = true -> forallb Encoding.is_hex_digit s = true ->
  flat_map Encoding.byte_hex (Encoding.fromHex_list s) = map ascii_toLowerCase s
  /\ (2 * List.length (Encoding.fromHex_list s) = List.length s)%nat.
Proof.
  revert s. fix IH 1. intros [|hi [|lo rest]] Hlen Hhex.
  - split; reflexivity.
  - discriminate.
  - cbn [forallb] in Hhex. apply andb_prop in Hhex as [Hhi Hhex].
    apply andb_prop in Hhex as [Hlo Hrest].
    unfold Encoding.is_hex_digit in Hhi, Hlo. cbn [Encoding.fromHex_list].
    destruct (Encoding.hex_value hi) as [h|] eqn:Eh; [|discriminate].
    destruct (Encoding.hex_value lo) as [l|] eqn:El; [|discriminate].
    apply hex_value_lowercase in Eh as [Hh Eh], El as [Hl El].
    destruct (IH rest Hlen Hrest) as [IH1 IH2].
    cbn [flat_map map List.length]. rewrite byte_hex_of_digits, IH1, Eh, El by assumption.
    split; [reflexivity|lia].
Qed.

(** The ObjectId [parseObjectId] builds from a string of 24 hexadecimal
    digits has twelve bytes, and its text is the string in lowercase. *)
Lemma ObjectId_fromHex_faithful (s : string) :
  is_hex24 s = true ->
  List.length (bson.id (bson.ObjectId_fromHex s)) = 12%nat
  /\ bson.ObjectId_toString (bson.ObjectId_fromHex s)
     = string_of_list_ascii (map ascii_toLowerCase (list_ascii_of_string s)).
Proof.
  unfold is_hex24. intros H. apply andb_prop in H as [Hlen Hhex].
  apply Nat.eqb_eq in Hlen. rewrite <- length_list_ascii in Hlen.
  unfold bson.ObjectId_toString, bson.ObjectId_fromHex, Encoding.toHex, Encoding.fromHex.
  cbn [bson.id].
  destruct (toHex_fromHex_list (list_ascii_of_string s)) as [E1 E2];
    [now rewrite Hlen | exact Hhex |].
  rewrite E1. split; [lia|reflexivity].
Qed.

(** ** The internal class and the lookup table *)

Lemma append_length (a b : string) :
  String.length (a ++ b) = (String.length a + String.length b)%nat.
Proof.
  induction a as [|c a IH]; simpl; [reflexivity|]. now rewrite IH.
Qed.

Lemma append_cancel_r (x a b : string) : (a ++ x = b ++ x)%string -> a = b.
Proof.
  revert b. induction a as [|c a IH]; intros [|d b] H.
  - reflexivity.
  - apply (f_equal String.length) in H. simpl in H. rewrite append_length in H. lia.
  - apply (f_equal String.length) in H. simpl in H. rewrite append_length in H. lia.
  - simpl in H. injection H as -> H. f_equal. now apply IH.
Qed.

Lemma eqb_append_r (x a b : string) :
  String.eqb (a ++ x) (b ++ x) = String.eqb a b.
Proof.
  destruct (String.eqb_spec a b) as [->|Hne].
  - apply String.eqb_refl.
  - apply String.eqb_neq. intros H. apply Hne. now apply append_cancel_r in H.
Qed.

Lemma eqb_object_class (c k : string) :
  String.eqb ("[object " ++ c ++ "]") ("[object " ++ k ++ "]") = String.eqb c k.
Proof.
  cbn. apply eqb_append_r.
Qed.

(** [detectType] reads the internal class: the class itself when the
    table lists it, [undefined] otherwise. *)
Lemma detectType_class (value : Value) :
  detectType value
  = if known_class (class_of value) then VString (class_of value) else VUndefined.
Proof.
  unfold detectType, Object_prototype_toString_call, Map_get, TYPE_FOR_TO_STRING, known_class.
  generalize (class_of value) as c. intros c. cbn [assoc existsb].
  change "[object Array]" with ("[object " ++ "Array" ++ "]")%string.
  change "[object Object]" with ("[object " ++ "Object" ++ "]")%string.
  change "[object String]" with ("[object " ++ "String" ++ "]")%string.
  change "[object Date]" with ("[object " ++ "Date" ++ "]")%string.
  change "[object Number]" with ("[object " ++ "Number" ++ "]")%string.
  change "[object Function]" with ("[object " ++ "Function" ++ "]")%string.
  change "[object RegExp]" with ("[object " ++ "RegExp" ++ "]")%string.
  change "[object Boolean]" with ("[object " ++ "Boolean" ++ "]")%string.
  change "[object Null]" with ("[object " ++ "Null" ++ "]")%string.
  change "[object Undefined]" with ("[object " ++ "Undefined" ++ "]")%string.
  rewrite !eqb_object_class.
  repeat match goal with
         | |- context [String.eqb c ?k] =>
             destruct (String.eqb_spec c k) as [->|?]; [reflexivity|]
         end.
  reflexivity.
Qed.

Lemma detectType_Object (value : Value) :
  strict_equals_string (detectType value) "Object" = String.eqb (class_of value) "Object".
Proof.
  rewrite detectType_class. unfold known_class. cbn [existsb].
  destruct (String.eqb_spec (class_of value) "Object") as [->|Hne]; [reflexivity|].
  destruct (_ || _)%bool; [|reflexivity].
  cbn. now apply String.eqb_neq.
Qed.

(** On a value of class Object, reading [_bsontype] succeeds. *)
Lemma Get_bsontype_Object (value : Value) :
  class_of value = "Object" -> Get_bsontype value = Return (marker value).
Proof.
  unfold marker. destruct value; cbn; try discriminate; intros _; try reflexivity.
  destruct (assoc "_bsontype" props); reflexivity.
Qed.

Lemma descriptor_of_Object (value : Value) :
  class_of value = "Object" ->
  getTypeDescriptorForValue value
  = Return {| type := if ToBoolean (marker value) then marker value else VString "Object";
              isBSON := ToBoolean (marker value) |}.
Proof.
  intros Hc. unfold getTypeDescriptorForValue.
  rewrite detectType_Object, Hc. cbn [String.eqb Ascii.eqb Bool.eqb].
  rewrite (Get_bsontype_Object _ Hc). cbn [bind].
  rewrite detectType_class, Hc, negb_involutive. reflexivity.
Qed.

Lemma descriptor_of_other (value : Value) :
  class_of value <> "Object" ->
  getTypeDescriptorForValue value
  = Return {| type := detectType value; isBSON := false |}.
Proof.
  intros Hc. unfold getTypeDescriptorForValue.
  rewrite detectType_Object. apply String.eqb_neq in Hc. rewrite Hc. reflexivity.
Qed.

Lemma detectType_Object_iff (value : Value) :
  detectType value = VString "Object" <-> class_of value = "Object".
Proof.
  rewrite detectType_class. split.
  - destruct (known_class (class_of value)); [|discriminate]. now intros [= ->].
  - intros ->. reflexivity.
Qed.

(** ** The type classifier *)


Section Module_properties.

Context `{C : Collaborators}.

(** An object whose class is Object and whose marker is falsy is handed
    to the stringifier's own rendering. *)
Lemma replacer_plain_object (value : Value) (indent : string) (stringify : Stringify) :
  class_of value = "Object" -> ToBoolean (marker value) = false ->
  replacer value indent stringify = stringify value.
Proof.
  intros Hc Hm. unfold replacer.
  rewrite (descriptor_of_Object _ Hc), Hm. reflexivity.
Qed.

(** C10. An object of internal class Object whose [_bsontype] is absent
    or falsy is classified [{type: 'Object', isBSON: false}] and rendered
    by the generic structural stringifier; [isBSON] is true only for a
    value of class Object with a truthy marker. *)
Theorem falsy_marker_is_not_BSON (value : Value) :
  (class_of value = "Object" -> ToBoolean (marker value) = false ->
   getTypeDescriptorForValue value
   = Return {| type := VString "Object"; isBSON := false |}
   /\ forall indent stringify, replacer value indent stringify = stringify value)
  /\ (forall d, getTypeDescriptorForValue value = Return d -> isBSON d = true ->
      class_of value = "Object" /\ ToBoolean (marker value) = true).
Proof.
  split.
  - intros Hc Hm. split.
    + rewrite (descriptor_of_Object _ Hc), Hm. reflexivity.
    + intros indent stringify. now apply replacer_plain_object.
  - intros d Hd Hb.
    destruct (String.eqb_spec (class_of value) "Object") as [Hc|Hc].
    + rewrite (descriptor_of_Object _ Hc) in Hd. injection Hd as <-. now split.
    + rewrite (descriptor_of_other _ Hc) in Hd. injection Hd as <-. discriminate.
Qed.

(** ** Parsing *)

(** C2. [toSafeBSON] calls the parser once; it returns the parser's
    result when the parser returns, and when the parser throws it logs
    the error and returns [null]; it never throws. *)
Theorem toSafeBSON_never_throws (s : string) :
  (forall v, parser s = Return v -> toSafeBSON s = (Return v, [ParserCalled s]))
  /\ (forall e, parser s = Throw e ->
      toSafeBSON s = (Return VNull, [ParserCalled s; ConsoleError e]))
  /\ returns (fst (toSafeBSON s)).
Proof.
  unfold toSafeBSON, toBSON, returns. cbn.
  destruct (parser s) as [v|e]; cbn; repeat split.
  - now intros ? [= ->].
  - discriminate.
  - now eexists.
  - discriminate.
  - now intros ? [= ->].
  - now eexists.
Qed.

Lemma parseObjectId_hex (s : string) :
  is_hex24 s = true ->
  parseObjectId s
  = (Return (VBson (BObjectId legacy_ObjectID_tag (bson.ObjectId_fromHex s))), []).
Proof.
  intros H. unfold parseObjectId. now rewrite test_hex24, H.
Qed.

Lemma parseObjectId_other (s : string) :
  is_hex24 s = false -> parseObjectId s = (parser s, [ParserCalled s]).
Proof.
  intros H. unfold parseObjectId. now rewrite test_hex24, H.
Qed.

(** C6. On a string of 24 hexadecimal digits [parseObjectId] returns the
    ObjectId built from the string and the parser is not called; on any
    other string it is the parser's call on that string, result and
    exception alike. *)
Theorem parseObjectId_cases (s : string) :
  (is_hex24 s = true ->
   parseObjectId s
   = (Return (VBson (BObjectId legacy_ObjectID_tag (bson.ObjectId_fromHex s))), []))
  /\ (is_hex24 s = false ->
      parseObjectId s = toBSON s
      /\ parseObjectId s = (parser s, [ParserCalled s])).
Proof.
  split.
  - apply parseObjectId_hex.
  - intros H. split; [|now apply parseObjectId_other].
    unfold parseObjectId. now rewrite test_hex24, H.
Qed.

End Module_properties.

Section Formatter_properties.

Context `{C : Collaborators}.

(** ** The Binary formatter *)

(** C1. A Binary of subtype 4 over a 16-byte buffer renders as [UUID('…')]
    around the canonical UUID text, or around the hexadecimal text of its
    bytes when the canonical conversion throws; a Binary of any other
    subtype or buffer length renders as [BinData(…, '…')] around the
    subtype in lowercase hexadecimal and the base64 text of the payload.
    The formatter returns on every Binary. *)
Theorem Binary_rendering (v : bson.Binary) :
  (bson.sub_type v = 4%Z -> List.length (bson.buffer v) = 16%nat ->
   (forall uuid, Binary_toUUID_toString v = Return uuid ->
    BSON_TO_JS_STRING.Binary v = Return ("UUID('" ++ uuid ++ "')")%string)
   /\ (forall ex, Binary_toUUID_toString v = Throw ex ->
       BSON_TO_JS_STRING.Binary v
       = Return ("UUID('" ++ Encoding.toHex (bson.payload v) ++ "')")%string))
  /\ (bson.sub_type v <> 4%Z \/ List.length (bson.buffer v) <> 16%nat ->
      BSON_TO_JS_STRING.Binary v
      = Return ("BinData(" ++ Encoding.Number_toString16 (bson.sub_type v) ++ ", '"
                ++ Encoding.toBase64 (bson.payload v) ++ "')")%string)
  /\ ((0 <= bson.sub_type v)%Z ->
      lowercase_hex_without_padding
        (Encoding.Number_toString16 (bson.sub_type v)) (bson.sub_type v))
  /\ returns (BSON_TO_JS_STRING.Binary v).
Proof.
  unfold BSON_TO_JS_STRING.Binary, returns.
  destruct (Z.eqb_spec (bson.sub_type v) 4) as [Hs|Hs];
    destruct (Nat.eqb_spec (List.length (bson.buffer v)) 16) as [Hl|Hl]; cbn [andb].
  2-4: (split; [intros; contradiction|]; split; [intros _; reflexivity |];
        split; [apply Number_toString16_faithful | now eexists]).
  split; [intros _ _|split; [intros [?|?]; contradiction|]].
  - split; intros ? ->; reflexivity.
  - split; [apply Number_toString16_faithful|].
    destruct (Binary_toUUID_toString v); cbn; now eexists.
Qed.

(** A Binary instance reaches its formatter through the table. *)
Lemma replacer_Binary (v : bson.Binary) (indent : string) (stringify : Stringify) :
  replacer (VBson (BBinary v)) indent stringify
  = bind (BSON_TO_JS_STRING.Binary v) (fun s => Return (VString s)).
Proof. reflexivity. Qed.

(** ** The RegExp formatter *)

(** C5. A RegExp with none of the global, ignoreCase and multiline flags
    renders as [RegExp(<JSON-quoted source>)]; with any of them it renders
    as [RegExp(<JSON-quoted source>, '<flags>')], the flags text holding
    [g] iff global is set, then [i] iff ignoreCase is set, then [m] iff
    multiline is set, in that order. *)
Theorem RegExp_rendering (v : RegExpObj) :
  (global v = false -> ignoreCase v = false -> multiline v = false ->
   BSON_TO_JS_STRING.RegExp v
   = Return ("RegExp(" ++ Encoding.JSON_stringify_string (source v) ++ ")")%string)
  /\ (global v = true \/ ignoreCase v = true \/ multiline v = true ->
      BSON_TO_JS_STRING.RegExp v
      = Return ("RegExp(" ++ Encoding.JSON_stringify_string (source v) ++ ", '"
                ++ flags_in_order v ++ "')")%string)
  /\ (In "g"%char (list_ascii_of_string (flags_in_order v)) <-> global v = true)
  /\ (In "i"%char (list_ascii_of_string (flags_in_order v)) <-> ignoreCase v = true)
  /\ (In "m"%char (list_ascii_of_string (flags_in_order v)) <-> multiline v = true)
  /\ (exists dropped, flags_in_order v = string_of_list_ascii
        (filter (fun c => negb (existsb (Ascii.eqb c) dropped)) ["g"; "i"; "m"]%char)).
Proof.
  unfold BSON_TO_JS_STRING.RegExp, flags_in_order.
  destruct v as [src g i m]; cbn [global ignoreCase multiline source].
  split; [intros -> -> ->; reflexivity|].
  split; [intros H; destruct g, i, m; try reflexivity; cbn in H; intuition discriminate|].
  repeat split; try (destruct g, i, m; cbn; intuition (discriminate || congruence)).
  exists ((if g then [] else ["g"%char]) ++ (if i then [] else ["i"%char])
          ++ (if m then [] else ["m"%char])).
  destruct g, i, m; reflexivity.
Qed.

(** ** Dispatch through the formatter table *)

(** A BSON-classified value whose tag is no property of the table, own or
    inherited, is handed to the stringifier's own rendering. *)
Lemma replacer_unknown_tag (value : Value) (tag : string) (indent : string)
    (stringify : Stringify) :
  class_of value = "Object" -> marker value = VString tag -> tag <> "" ->
  Get BSON_TO_JS_STRING.own_properties tag = PUndefined ->
  replacer value indent stringify = stringify value.
Proof.
  intros Hc Hm Hne Hget. unfold replacer.
  rewrite (descriptor_of_Object _ Hc), Hm. cbn [ToBoolean].
  apply String.eqb_neq in Hne. rewrite Hne. cbn [negb bind type ToPropertyKey].
  rewrite Hget. reflexivity.
Qed.

(** C4, at the value [{ _bsontype: 'valueOf' }].  The value is classified
    as BSON with the tag ['valueOf'], which has no entry in the formatter
    table; the lookup [BSON_TO_JS_STRING['valueOf']] finds the function
    inherited from [Object.prototype], and calling it with [this]
    undefined throws a TypeError instead of falling through to the
    stringifier's own rendering. *)
Theorem replacer_calls_inherited_member (indent : string) (stringify : Stringify) :
  let value := VObject [("_bsontype", VString "valueOf")] in
  getTypeDescriptorForValue value
  = Return {| type := VString "valueOf"; isBSON := true |}
  /\ has_entry "valueOf" = false
  /\ Get BSON_TO_JS_STRING.own_properties "valueOf" = PBuiltin OP_valueOf
  /\ replacer value indent stringify = Throw not_an_object.
Proof.
  repeat split; reflexivity.
Qed.

(** ** The compact rendering *)

(** [stringify], called as a method of the module, applies the two
    replacements to the text [toJSString] returns for an indentation of one
    space. *)
Lemma stringify_of_text (obj : Value) (text : string) :
  toJSString obj (Some (IndentNumber 1)) = Return (VString text) ->
  stringify Module_namespace obj = Return (VString (compact text)).
Proof.
  intros H. unfold stringify, this_toJSString. rewrite H. reflexivity.
Qed.

Lemma stringify_of_nothing (obj : Value) :
  toJSString obj (Some (IndentNumber 1)) = Return VUndefined
  \/ toJSString obj (Some (IndentNumber 1)) = Return VNull ->
  stringify Module_namespace obj = Return VUndefined.
Proof.
  intros [H|H]; unfold stringify, this_toJSString; rewrite H; reflexivity.
Qed.

(** A detached call of [stringify] finds no [this] to read [toJSString]
    from. *)
Lemma stringify_detached (obj : Value) :
  stringify detached obj
  = Throw (TypeError "Cannot read properties of undefined (reading 'toJSString')").
Proof. reflexivity. Qed.

(** The callback on the values of another class than Object, Date and
    RegExp. *)
Lemma replacer_of_plain_class (value : Value) (indent : string) (k : Stringify) :
  class_of value <> "Object" -> class_of value <> "Date" -> class_of value <> "RegExp" ->
  replacer value indent k = k value.
Proof.
  intros HO HD HR. unfold replacer.
  rewrite (descriptor_of_other _ HO). cbn [bind type]. rewrite detectType_class.
  destruct (known_class (class_of value)) eqn:K; [|reflexivity].
  unfold known_class in K. cbn [existsb] in K. cbn [ToPropertyKey bind].
  repeat match type of K with
         | (String.eqb ?c ?k || _)%bool = true =>
             destruct (String.eqb_spec c k) as [E|_];
             [first [contradiction | rewrite E; reflexivity]|]; cbn [orb] in K
         end.
  discriminate.
Qed.

(** The callback on a value the table has a formatter for. *)
Lemma replacer_of_formatted (v : Value) (f : completion string) (indent : string)
    (k : Stringify) :
  formatter_of v = Some f ->
  replacer v indent k = bind f (fun text => Return (VString text)).
Proof.
  destruct v; try discriminate; [now intros [= <-] | now intros [= <-] |].
  destruct b as [| [] | | | | | | | | | |]; try discriminate; now intros [= <-].
Qed.

Lemma unlisted_tag_Get (tag : string) :
  unlisted_tag tag = true -> Get BSON_TO_JS_STRING.own_properties tag = PUndefined.
Proof.
  unfold unlisted_tag, has_entry, Get. intros H. apply andb_prop in H as [He Hp].
  destruct (assoc tag BSON_TO_JS_STRING.own_properties); [discriminate He|].
  unfold Object_prototype_names in Hp. cbn [existsb] in Hp.
  unfold Object_prototype_get.
  repeat match goal with
         | |- context [String.eqb tag ?n] =>
             destruct (String.eqb tag n); [discriminate Hp|cbn [orb] in Hp]
         end.
  reflexivity.
Qed.

(** The callback on an object of class Object whose marker is falsy, or a
    string tag that is no property of the table. *)
Lemma replacer_of_tagged (value : Value) (indent : string) (k : Stringify) :
  class_of value = "Object" ->
  match marker value with
  | VString tag => (String.eqb tag "" || unlisted_tag tag)%bool
  | m => negb (ToBoolean m)
  end = true ->
  replacer value indent k = k value.
Proof.
  intros Hc Hm. destruct (ToBoolean (marker value)) eqn:Et.
  - destruct (marker value) as [| | | |tag| | | | | | |] eqn:Em;
      try (rewrite Et in Hm; discriminate Hm).
    cbn in Et. apply negb_true_iff in Et. rewrite Et in Hm. cbn [orb] in Hm.
    apply (replacer_unknown_tag value tag); auto.
    + now apply String.eqb_neq.
    + now apply unlisted_tag_Get.
  - now apply replacer_plain_object.
Qed.

(** On a regular value the callback raises nothing: a value without
    formatter goes to the stringifier's own rendering, a value with one
    is rendered by it, as a text. *)
Lemma replacer_of_regular (v : Value) (indent : string) (k : Stringify) :
  regular v = true ->
  (formatted_leaf v = false -> replacer v indent k = k v)
  /\ (formatted_leaf v = true ->
      exists text, formatter_of v = Some (Return text)
                   /\ replacer v indent k = Return (VString text)).
Proof.
  intros Hr. split.
  - intros Hf. destruct v; try discriminate Hf;
      try (apply replacer_of_plain_class; discriminate).
    + apply replacer_of_tagged; [reflexivity|]. unfold marker. cbn [Get_bsontype].
      cbn [regular] in Hr. destruct (assoc "_bsontype" props) as [m|]; [|reflexivity].
      destruct m; exact Hr.
    + cbn [regular] in Hr. apply negb_true_iff, orb_false_elim in Hr as [HD HR].
      apply String.eqb_neq in HD, HR.
      destruct (String.eqb_spec class "Object") as [->|HO].
      * apply replacer_plain_object; reflexivity.
      * apply replacer_of_plain_class; assumption.
    + destruct b; try discriminate Hf.
      apply replacer_of_tagged; [reflexivity|exact Hr].
  - intros Hf.
    assert (Hret : forall f, formatter_of v = Some f -> exists text, f = Return text).
    { destruct v; try discriminate Hf.
      - intros f [= <-]. unfold BSON_TO_JS_STRING.Date, BSON_TO_JS_STRING.ISODate,
          Date_prototype_toISOString. destruct (time_value d); cbn; eexists; reflexivity.
      - intros f [= <-]. unfold BSON_TO_JS_STRING.RegExp.
        destruct (global r), (ignoreCase r), (multiline r); eexists; reflexivity.
      - destruct b as [code scope| [] | bin | r | | | | | | | |]; try discriminate Hf;
          intros f [= <-]; try (eexists; reflexivity).
        + cbn [regular] in Hr. unfold BSON_TO_JS_STRING.Code.
          destruct (ToBoolean scope); [|eexists; reflexivity].
          cbn [negb orb] in Hr. destruct (JSON_stringify scope); [|discriminate Hr].
          cbn. eexists. reflexivity.
        + unfold BSON_TO_JS_STRING.Binary.
          destruct (_ && _)%bool; [|eexists; reflexivity].
          destruct (Binary_toUUID_toString bin); cbn; eexists; reflexivity.
        + unfold BSON_TO_JS_STRING.DBRef.
          destruct (bson.db r) as [d|]; [destruct (String.eqb d "")|];
            cbn; eexists; reflexivity. }
    destruct (formatter_of v) as [f|] eqn:Ef.
    + destruct (Hret f eq_refl) as [text ->]. exists text. split; [reflexivity|].
      now rewrite (replacer_of_formatted v _ indent k Ef).
    + destruct v as [| | | | | | | | | | |b]; try discriminate Hf; try discriminate Ef.
      destruct b as [| [] | | | | | | | | | |]; try discriminate Ef; discriminate Hf.
Qed.


End Formatter_properties.

(* ================================================================== *)
(** * The module run on the reference collaborators *)
(* ================================================================== *)

Section Runs.

Import Examples.

Local Existing Instance Reference.collaborators.


Lemma falsy_marker_is_not_BSON_witness :
  getTypeDescriptorForValue (tagged "")
  = Return {| type := VString "Object"; isBSON := false |}
  /\ forall indent stringify, replacer (tagged "") indent stringify = stringify (tagged "").
Proof.
  apply (proj1 (falsy_marker_is_not_BSON (tagged ""))); reflexivity.
Defined.

Lemma toSafeBSON_never_throws_witness :
  toSafeBSON malformed
  = (Return VNull, [ParserCalled malformed; ConsoleError (SyntaxError "Unexpected token")])
  /\ toSafeBSON "{}" = (Return (VObject []), [ParserCalled "{}"]).
Proof.
  split.
  - apply (proj1 (proj2 (toSafeBSON_never_throws malformed))). reflexivity.
  - apply (proj1 (toSafeBSON_never_throws "{}")). reflexivity.
Defined.

Lemma parseObjectId_cases_witness :
  parseObjectId hex_id
  = (Return (VBson (BObjectId false (bson.ObjectId_fromHex hex_id))), [])
  /\ parseObjectId "true" = (Return (VBool true), [ParserCalled "true"]).
Proof.
  split.
  - exact (proj1 (parseObjectId_cases hex_id) eq_refl).
  - exact (proj2 (proj2 (parseObjectId_cases "true") eq_refl)).
Defined.

Lemma Binary_rendering_witness :
  BSON_TO_JS_STRING.Binary uuid
  = Return "UUID('123e4567-e89b-12d3-a456-426614174000')"
  /\ BSON_TO_JS_STRING.Binary short_uuid = Return "UUID('123e')"
  /\ BSON_TO_JS_STRING.Binary blob = Return "BinData(80, 'TWFu')".
Proof.
  split; [|split].
  - exact (proj1 (proj1 (Binary_rendering uuid) eq_refl eq_refl)
             "123e4567-e89b-12d3-a456-426614174000" eq_refl).
  - exact (proj2 (proj1 (Binary_rendering short_uuid) eq_refl eq_refl)
             (LibraryError "Binary sub_type is not UUID or the payload is not 16 bytes")
             eq_refl).
  - refine (proj1 (proj2 (Binary_rendering blob)) _). left. discriminate.
Defined.

Lemma RegExp_rendering_witness :
  BSON_TO_JS_STRING.RegExp
    {| source := "^a.c$"; global := false; ignoreCase := false; multiline := false |}
  = Return (String "R" (String "e" (String "g" (String "E" (String "x" (String "p"
      (String "(" (String Encoding.quote_char ("^a.c$" ++
         String Encoding.quote_char ")")))))))))%string
  /\ BSON_TO_JS_STRING.RegExp
       {| source := "b"; global := true; ignoreCase := true; multiline := true |}
     = Return ("RegExp(" ++ String Encoding.quote_char ("b" ++
         String Encoding.quote_char ", 'gim')"))%string.
Proof.
  split.
  - exact (proj1 (RegExp_rendering
                    {| source := "^a.c$"; global := false; ignoreCase := false;
                       multiline := false |}) eq_refl eq_refl eq_refl).
  - exact (proj1 (proj2 (RegExp_rendering
                           {| source := "b"; global := true; ignoreCase := true;
                              multiline := true |})) (or_introl eq_refl)).
Defined.



(** C8, at the document [{a: 1}].  Its rendering with an indentation of one
    space has two newlines; [stringify], called as a method of the module,
    deletes each newline with the spaces around it, where collapsing the
    whitespace to single spaces keeps one space in its place; called
    detached it returns no text at all. *)
Theorem stringify_deletes_newlines :
  toJSString one (Some (IndentNumber 1)) = Return (VString rendering_of_one)
  /\ stringify Module_namespace one = Return (VString "{a: 1}")
  /\ collapsed_to_single_spaces rendering_of_one = "{ a: 1 }"
  /\ stringify Module_namespace one
     <> Return (VString (collapsed_to_single_spaces rendering_of_one))
  /\ stringify detached one
     <> Return (VString (collapsed_to_single_spaces rendering_of_one)).
Proof.
  repeat split; try reflexivity; discriminate.
Qed.

(** The failing dispatch of C4, through [toJSString]: a document with the
    sub-document [{ _bsontype: 'valueOf' }] is not rendered. *)
Example toJSString_throws_on_inherited_tag :
  toJSString (VObject [("x", tagged "valueOf")]) None = Throw not_an_object
  /\ stringify Module_namespace (VObject [("x", tagged "valueOf")]) = Throw not_an_object.
Proof. split; reflexivity. Qed.

(** The base64 test vectors of RFC 4648. *)
Example base64_vectors :
  map (fun s => Encoding.toBase64 (bytes_of s)) [""; "f"; "fo"; "foo"; "foob"; "fooba"; "foobar"]
  = [""; "Zg=="; "Zm8="; "Zm9v"; "Zm9vYg=="; "Zm9vYmE="; "Zm9vYmFy"].
Proof. reflexivity. Qed.

(** Leaves are formatted one by one inside the structure, keys in
    insertion order. *)
Example toJSString_nested :
  toJSString nested None
  = Return (VString ("{" ++ Reference.eol
                     ++ "  a: ObjectId('507f1f77bcf86cd799439011')," ++ Reference.eol
                     ++ "  b: [" ++ Reference.eol
                     ++ "    1," ++ Reference.eol
                     ++ "    NumberLong(2)" ++ Reference.eol
                     ++ "  ]" ++ Reference.eol
                     ++ "}")%string)
  /\ stringify Module_namespace nested
     = Return (VString "{a: ObjectId('507f1f77bcf86cd799439011'),b: [1,NumberLong(2)]}").
Proof. split; reflexivity. Qed.

(** The other inherited members: [__proto__] is no function, [toString]
    answers for the missing receiver. *)
Example toJSString_on_other_inherited_tags :
  toJSString (tagged "__proto__") None = Throw (TypeError "toJs is not a function")
  /\ toJSString (tagged "hasOwnProperty") None = Throw not_an_object
  /\ toJSString (tagged "toString") None = Return (VString "[object Undefined]").
Proof. repeat split; reflexivity. Qed.

(** A tag that is no property of the table falls through. *)
Example toJSString_renders_unknown_tag :
  toJSString (tagged "BSONSymbol") (Some (IndentNumber 0))
  = Return (VString "{_bsontype:'BSONSymbol'}").
Proof. reflexivity. Qed.

End Runs.

(* ================================================================== *)
(** * Further properties of the module *)
(* ================================================================== *)

(** ** The classifier and the dispatch *)

(** X1. [detectType] answers with the internal class of the value when it
    is one of the ten the table lists, and with [undefined] for every
    other class. *)
Theorem detectType_reads_internal_class (value : Value) :
  (known_class (class_of value) = true -> detectType value = VString (class_of value))
  /\ (known_class (class_of value) = false -> detectType value = VUndefined).
Proof.
  rewrite detectType_class. split; intros ->; reflexivity.
Qed.

Lemma Object_prototype_get_unlisted (key : string) :
  ~ In key Object_prototype_names -> Object_prototype_get key = PUndefined.
Proof.
  unfold Object_prototype_names, Object_prototype_get. cbn [In]. intros H.
  repeat match goal with
         | |- context [String.eqb key ?k] =>
             destruct (String.eqb_spec key k) as [->|?]; [exfalso; apply H; auto 20|]
         end.
  reflexivity.
Qed.

Section Dispatch.

Context `{C : Collaborators}.

(** X2. A value whose internal class is none of Object, Date and RegExp
    (a primitive, an array, a function, an object of an unlisted class) is
    always handed to the stringifier's own rendering. *)
Theorem replacer_delegates_plain_values (value : Value) (indent : string)
    (stringify : Stringify) :
  class_of value <> "Object" -> class_of value <> "Date" -> class_of value <> "RegExp" ->
  replacer value indent stringify = stringify value.
Proof.
  intros HO HD HR. unfold replacer.
  rewrite (descriptor_of_other _ HO). cbn [bind type]. rewrite detectType_class.
  destruct (known_class (class_of value)) eqn:K; [|reflexivity].
  unfold known_class in K. cbn [existsb] in K. cbn [ToPropertyKey bind].
  repeat match type of K with
         | (String.eqb ?c ?k || _)%bool = true =>
             destruct (String.eqb_spec c k) as [E|_];
             [first [contradiction | rewrite E; reflexivity]|]; cbn [orb] in K
         end.
  discriminate.
Qed.

(** X3. A value classified as BSON whose tag has no entry in the table
    and is no property name of [Object.prototype] falls through to the
    stringifier's own rendering. *)
Theorem replacer_falls_through (value : Value) (tag : string) (indent : string)
    (stringify : Stringify) :
  class_of value = "Object" -> marker value = VString tag -> tag <> "" ->
  has_entry tag = false -> ~ In tag Object_prototype_names ->
  replacer value indent stringify = stringify value.
Proof.
  intros Hc Hm Hne He Hp. apply (replacer_unknown_tag value tag); try assumption.
  unfold Get. unfold has_entry in He.
  destruct (assoc tag BSON_TO_JS_STRING.own_properties); [discriminate|].
  now apply Object_prototype_get_unlisted.
Qed.

(** X4. An instance of a library class of the table, a Date and a RegExp
    are rendered by the formatter the table holds for their class,
    whatever the stringifier's callback: the callback of [toJSString]
    returns the text of that formatter, and throws only what the formatter
    throws; the formatter returns, provided [JSON.stringify] returns on the
    scope of a Code that has one. *)
Theorem formatted_leaf_rendering (v : Value) (indent : string) (k : Stringify) :
  formatted_leaf v = true ->
  exists f,
    formatter_of v = Some f
    /\ replacer v indent k = bind f (fun text => Return (VString text))
    /\ ((forall code scope, v = VBson (BCode code scope) -> ToBoolean scope = true ->
         returns (JSON_stringify scope)) ->
        exists text, f = Return text /\ replacer v indent k = Return (VString text)).
Proof.
  intros Hleaf.
  assert (Hf : exists f, formatter_of v = Some f).
  { destruct v as [| | | | | | | | | | |b]; try discriminate Hleaf;
      [eexists; reflexivity | eexists; reflexivity |].
    destruct b as [| [] | | | | | | | | | |]; try discriminate Hleaf; eexists; reflexivity. }
  destruct Hf as [f Ef]. exists f. split; [exact Ef|].
  pose proof (replacer_of_formatted v f indent k Ef) as Hr. split; [exact Hr|].
  intros HJ. rewrite Hr.
  assert (Hret : exists text, f = Return text);
    [|destruct Hret as [text ->]; exists text; split; reflexivity].
  destruct v as [| | | | | | |d|r| | |b]; try discriminate Hleaf.
  - injection Ef as <-. unfold BSON_TO_JS_STRING.Date, BSON_TO_JS_STRING.ISODate,
      Date_prototype_toISOString. destruct (time_value d); cbn; eexists; reflexivity.
  - injection Ef as <-. unfold BSON_TO_JS_STRING.RegExp.
    destruct (global r), (ignoreCase r), (multiline r); eexists; reflexivity.
  - destruct b as [code scope| [] | bin | r | | | | | | | |]; try discriminate Hleaf;
      injection Ef as <-; try (eexists; reflexivity).
    + unfold BSON_TO_JS_STRING.Code. destruct (ToBoolean scope) eqn:Es.
      * destruct (HJ code scope eq_refl Es) as [j Hj]. rewrite Hj. cbn.
        eexists. reflexivity.
      * eexists. reflexivity.
    + unfold BSON_TO_JS_STRING.Binary.
      destruct (_ && _)%bool; [|eexists; reflexivity].
      destruct (Binary_toUUID_toString bin); cbn; eexists; reflexivity.
    + unfold BSON_TO_JS_STRING.DBRef.
      destruct (bson.db r) as [d|]; [destruct (String.eqb d "")|];
        cbn; eexists; reflexivity.
Qed.

End Dispatch.

(** ** ObjectId: through [parseObjectId] and the formatter *)

Lemma byte_hex_digits (b : Byte.byte) :
  forallb Encoding.is_hex_digit (Encoding.byte_hex b) = true.
Proof. destruct b; reflexivity. Qed.

Lemma toHex_is_hex (bs : list Byte.byte) :
  forallb Encoding.is_hex_digit (list_ascii_of_string (Encoding.toHex bs)) = true.
Proof.
  unfold Encoding.toHex. rewrite list_ascii_of_string_of_list_ascii.
  induction bs as [|b bs IH]; [reflexivity|].
  cbn [flat_map]. rewrite forallb_app, byte_hex_digits, IH. reflexivity.
Qed.

Lemma ObjectId_text_is_hex24 (o : bson.ObjectId) :
  List.length (bson.id o) = 12%nat -> is_hex24 (bson.ObjectId_toString o) = true.
Proof.
  intros H. unfold is_hex24, bson.ObjectId_toString.
  rewrite (proj2 (fromHex_toHex (bson.id o))), H, toHex_is_hex. reflexivity.
Qed.

Section Leaf_properties.

Context `{C : Collaborators}.

(** X5. The ObjectId [parseObjectId] builds from a string of 24
    hexadecimal digits is rendered as [ObjectId('…')] around that string in
    lowercase, under either spelling of its marker. *)
Theorem parseObjectId_then_format (s : string) (indent : string) (k : Stringify) :
  is_hex24 s = true ->
  exists v,
    fst (parseObjectId s) = Return v
    /\ replacer v indent k
       = Return (VString ("ObjectId('" ++ String_toLowerCase s ++ "')")).
Proof.
  intros H. rewrite (parseObjectId_hex s H). eexists. split; [reflexivity|].
  unfold String_toLowerCase. rewrite <- (proj2 (ObjectId_fromHex_faithful s H)).
  destruct legacy_ObjectID_tag; reflexivity.
Qed.

(** X6. [parseObjectId] inverts the formatter's text of an ObjectId: on the
    hexadecimal text of a twelve-byte ObjectId it returns that ObjectId,
    without calling the parser. *)
Theorem parseObjectId_inverts_text (o : bson.ObjectId) :
  List.length (bson.id o) = 12%nat ->
  parseObjectId (bson.ObjectId_toString o)
  = (Return (VBson (BObjectId legacy_ObjectID_tag o)), []).
Proof.
  intros H. rewrite (parseObjectId_hex _ (ObjectId_text_is_hex24 o H)).
  unfold bson.ObjectId_fromHex, bson.ObjectId_toString.
  rewrite (proj1 (fromHex_toHex (bson.id o))). destruct o. reflexivity.
Qed.

(** X7. The Date formatter never throws: a valid Date is rendered with its
    ISO text, and for an Invalid Date the RangeError of [toISOString] is
    caught and the rendering is [ISODate('Invalid Date')]. *)
Theorem Date_formatter_catches (d : DateObj) :
  returns (BSON_TO_JS_STRING.Date d)
  /\ (forall t, time_value d = Some t ->
      BSON_TO_JS_STRING.Date d = Return ("ISODate('" ++ Date_toISOString t ++ "')")%string)
  /\ (time_value d = None ->
      Date_prototype_toISOString d = Throw (RangeError "Invalid time value")
      /\ BSON_TO_JS_STRING.Date d = Return "ISODate('Invalid Date')").
Proof.
  unfold BSON_TO_JS_STRING.Date, BSON_TO_JS_STRING.ISODate, Date_prototype_toISOString,
    Date_prototype_toString, returns.
  destruct (time_value d) as [t|]; cbn; repeat split; try discriminate.
  - eexists. reflexivity.
  - now intros ? [= ->].
  - eexists. reflexivity.
Qed.

End Leaf_properties.

(** ** The integer formatters *)

Lemma digits_keep_acc (base : N) (digit : N -> ascii) (fuel : nat) (n : N)
    (acc : list ascii) :
  acc <> [] -> Encoding.digits base digit fuel n acc <> [].
Proof.
  intros H. rewrite digits_app. intros E. apply app_eq_nil in E. now destruct E.
Qed.

Lemma dec_digit_not_minus (d : N) : (d < 10)%N -> Encoding.dec_digit d <> "-"%char.
Proof.
  intros H. assert (H16 : (d < 16)%N) by lia. apply below_16 in H16. cbn [In] in H16.
  repeat (destruct H16 as [<-|H16]; [try discriminate; lia|]). contradiction.
Qed.

(** The decimal text of a natural number starts with a digit. *)
Lemma N_toString_dec_head (n : N) :
  exists c rest,
    Encoding.N_toString 10 Encoding.dec_digit n = String c rest /\ c <> "-"%char.
Proof.
  unfold Encoding.N_toString.
  set (l := Encoding.digits 10 Encoding.dec_digit _ n []).
  assert (Hall : Forall (fun c => c <> "-"%char) l).
  { apply digits_are_digits; [lia | exact dec_digit_not_minus | constructor]. }
  assert (Hne : l <> []).
  { subst l. cbn [Encoding.digits]. destruct (n <? 10)%N; [discriminate|].
    apply digits_keep_acc. discriminate. }
  destruct l as [|c rest]; [contradiction|].
  exists c, (string_of_list_ascii rest). split; [reflexivity|]. now inversion Hall.
Qed.

Lemma Integer_toString_nonneg_inj (a b : Z) :
  (0 <= a)%Z -> (0 <= b)%Z ->
  Encoding.Integer_toString a = Encoding.Integer_toString b -> a = b.
Proof.
  intros Ha Hb E.
  pose proof (proj1 (Integer_toString_faithful a Ha)) as Va.
  pose proof (proj1 (Integer_toString_faithful b Hb)) as Vb.
  rewrite E in Va. rewrite Va in Vb. lia.
Qed.

(** Different integers have different decimal texts. *)
Lemma Integer_toString_inj (a b : Z) :
  Encoding.Integer_toString a = Encoding.Integer_toString b -> a = b.
Proof.
  intros E.
  assert (Hneg : forall z, (z < 0)%Z ->
            Encoding.Integer_toString z = ("-" ++ Encoding.Integer_toString (- z))%string).
  { intros z Hz. unfold Encoding.Integer_toString.
    destruct (Z.ltb_spec z 0); [|lia]. destruct (Z.ltb_spec (- z) 0); [lia|reflexivity]. }
  assert (Hpos : forall z, (0 <= z)%Z ->
            exists c rest, Encoding.Integer_toString z = String c rest /\ c <> "-"%char).
  { intros z Hz. unfold Encoding.Integer_toString.
    destruct (Z.ltb_spec z 0); [lia|]. apply N_toString_dec_head. }
  destruct (Z.lt_ge_cases a 0) as [Ha|Ha]; destruct (Z.lt_ge_cases b 0) as [Hb|Hb].
  - rewrite (Hneg a Ha), (Hneg b Hb) in E. injection E as E.
    apply Integer_toString_nonneg_inj in E; lia.
  - rewrite (Hneg a Ha) in E. destruct (Hpos b Hb) as (c & rest & Eb & Hc).
    rewrite Eb in E. injection E as E _. now subst c.
  - rewrite (Hneg b Hb) in E. destruct (Hpos a Ha) as (c & rest & Ea & Hc).
    rewrite Ea in E. injection E as E _. now subst c.
  - now apply Integer_toString_nonneg_inj.
Qed.

(** X8. The renderings of Long and Int32 determine the value: two Longs
    with the same [NumberLong(…)] text have the same 64-bit value, and are
    the same Long when their halves are 32-bit integers and their
    signedness agrees; two Int32 with the same text are equal. *)
Theorem integer_renderings_determine_value :
  (forall a b : bson.Long,
     BSON_TO_JS_STRING.Long a = BSON_TO_JS_STRING.Long b ->
     bson.Long_value a = bson.Long_value b
     /\ (Long_well_formed a -> Long_well_formed b ->
         bson.unsigned a = bson.unsigned b -> a = b))
  /\ (forall a b : bson.Int32,
        BSON_TO_JS_STRING.Int32 a = BSON_TO_JS_STRING.Int32 b -> a = b).
Proof.
  split.
  - intros a b E. unfold BSON_TO_JS_STRING.Long, bson.Long_toString in E.
    injection E as E. apply append_cancel_r, Integer_toString_inj in E.
    split; [exact E|]. intros [Hla Hha] [Hlb Hhb] Hu.
    unfold bson.Long_value in E. unfold int32 in *.
    destruct a as [la ha ua], b as [lb hb ub]. cbn in *. subst ub.
    assert (la = lb /\ ha = hb) as [-> ->]; [|reflexivity].
    destruct ua; Z.to_euclidean_division_equations; lia.
  - intros a b E. unfold BSON_TO_JS_STRING.Int32 in E.
    injection E as E. apply append_cancel_r, Integer_toString_inj in E.
    destruct a, b. cbn in E. now subst.
Qed.

Lemma Integer_toString_chars (P : ascii -> Prop) (z : Z) :
  P "-"%char -> (forall d, (d < 10)%N -> P (Encoding.dec_digit d)) ->
  Forall P (list_ascii_of_string (Encoding.Integer_toString z)).
Proof.
  intros Hm Hd. unfold Encoding.Integer_toString, Encoding.N_toString.
  destruct (z <? 0)%Z; cbn [append list_ascii_of_string];
    rewrite list_ascii_of_string_of_list_ascii;
    [constructor; [exact Hm|]|]; apply digits_are_digits; try lia; auto.
Qed.

Lemma dec_digit_not_comma (d : N) : (d < 10)%N -> Encoding.dec_digit d <> ","%char.
Proof.
  intros H. assert (H16 : (d < 16)%N) by lia. apply below_16 in H16. cbn [In] in H16.
  repeat (destruct H16 as [<-|H16]; [try discriminate; lia|]). contradiction.
Qed.

(** A text is cut in one way only at the first occurrence of a
    character. *)
Lemma append_split (c : ascii) (a a' r r' : string) :
  ~ In c (list_ascii_of_string a) -> ~ In c (list_ascii_of_string a') ->
  (a ++ String c r = a' ++ String c r')%string -> a = a' /\ r = r'.
Proof.
  revert a'. induction a as [|x a IH]; intros [|y a'] Ha Ha' E; cbn in *.
  - injection E as ->. now split.
  - injection E as <- _. exfalso. apply Ha'. now left.
  - injection E as -> _. exfalso. apply Ha. now left.
  - injection E as -> E. destruct (IH a') as [-> ->]; auto.
Qed.

(** X14. The rendering of an ObjectId determines its bytes: two ObjectIds
    with the same [ObjectId('…')] text are equal. *)
Theorem ObjectId_rendering_determines_id (a b : bson.ObjectId) :
  BSON_TO_JS_STRING.ObjectId a = BSON_TO_JS_STRING.ObjectId b -> a = b.
Proof.
  unfold BSON_TO_JS_STRING.ObjectId, bson.ObjectId_toString. intros E.
  injection E as E. apply append_cancel_r in E.
  apply (f_equal Encoding.fromHex) in E.
  rewrite !(proj1 (fromHex_toHex _)) in E. destruct a, b. cbn in E. now subst.
Qed.

(** X9. The rendering of a Timestamp determines both of its halves. *)
Theorem Timestamp_rendering_determines_halves (a b : bson.Long) :
  BSON_TO_JS_STRING.Timestamp a = BSON_TO_JS_STRING.Timestamp b ->
  bson.high a = bson.high b /\ bson.low a = bson.low b.
Proof.
  unfold BSON_TO_JS_STRING.Timestamp. intros E. injection E as E.
  assert (Hc : forall z, ~ In ","%char (list_ascii_of_string (Encoding.Integer_toString z))).
  { intros z Hin.
    pose proof (Integer_toString_chars (fun c => c <> ","%char) z) as Hall.
    rewrite Forall_forall in Hall. apply (Hall ltac:(discriminate) dec_digit_not_comma _ Hin).
    reflexivity. }
  apply (append_split ","%char) in E as [Eh El]; [|apply Hc|apply Hc].
  injection El as El. apply append_cancel_r in El.
  split; now apply Integer_toString_inj.
Qed.

(** ** The compaction of [stringify] *)

Lemma has_newline_In (s : list ascii) :
  has_newline s = false <-> ~ In (ascii_of_N 10) s.
Proof.
  unfold has_newline. split.
  - intros H Hin. assert (E : existsb (Ascii.eqb (ascii_of_N 10)) s = true).
    { apply existsb_exists. eexists. split; [exact Hin|apply Ascii.eqb_refl]. }
    congruence.
  - intros H. destruct (existsb _ s) eqn:E; [|reflexivity].
    apply existsb_exists in E as (x & Hin & Hx). apply Ascii.eqb_eq in Hx. now subst.
Qed.

Lemma run_Chr_inv (c : ascii) (s rest : list ascii) :
  In rest (Regex.run (Regex.Chr c) s) -> s = c :: rest.
Proof.
  destruct s as [|x t]; cbn; [contradiction|].
  destruct (Ascii.eqb_spec x c) as [->|]; cbn; [|contradiction]. now intros [<-|[]].
Qed.

Lemma run_Opt_Chr_inv (c : ascii) (s rest : list ascii) :
  In rest (Regex.run (Regex.Opt (Regex.Chr c)) s) -> s = rest \/ s = c :: rest.
Proof.
  cbn [Regex.run]. rewrite in_app_iff. intros [H|[<-|[]]]; [|now left].
  right. now apply run_Chr_inv.
Qed.

(** [/ ?\n ? ?/] matches only where a newline is. *)
Lemma run_newline_and_indent_none (s : list ascii) :
  has_newline s = false -> Regex.run newline_and_indent s = [].
Proof.
  intros H. destruct (Regex.run newline_and_indent s) as [|rest l] eqn:E; [reflexivity|].
  exfalso. apply has_newline_In in H. apply H.
  assert (Hin : In rest (Regex.run newline_and_indent s)) by (rewrite E; now left).
  unfold newline_and_indent in Hin. cbn [Regex.run] in Hin.
  apply in_flat_map in Hin as (s1 & H1 & Hin).
  apply in_flat_map in Hin as (s2 & H2 & _).
  change (In s1 (Regex.run (Regex.Opt (Regex.Chr " ")) s)) in H1.
  change (In s2 (Regex.run (Regex.Chr (ascii_of_N 10)) s1)) in H2.
  apply run_Chr_inv in H2. apply run_Opt_Chr_inv in H1 as [->| ->]; subst s1.
  - now left.
  - right. now left.
Qed.

Lemma scan_newline_and_indent_id (s : list ascii) :
  has_newline s = false -> Regex.replace_scan newline_and_indent [] 0 s = s.
Proof.
  induction s as [|c t IH]; intros H; cbn [Regex.replace_scan].
  - now rewrite (run_newline_and_indent_none [] H).
  - rewrite (run_newline_and_indent_none _ H). f_equal. apply IH.
    unfold has_newline in *. cbn [existsb] in H. now apply orb_false_elim in H.
Qed.

Lemma scan_two_or_more_spaces_id (s : list ascii) :
  adjacent_spaces s = false -> Regex.replace_scan two_or_more_spaces [" "%char] 0 s = s.
Proof.
  induction s as [|c t IH]; intros H; [reflexivity|]. cbn [Regex.replace_scan].
  destruct (run_two_or_more_spaces (c :: t)) as [(t2 & l & Es & _)|[Er _]].
  - injection Es as -> ->. discriminate H.
  - rewrite Er. f_equal. apply IH. cbn [adjacent_spaces] in H.
    now apply orb_false_elim in H.
Qed.

Lemma compact_is_tidy (text : string) : tidy (compact text).
Proof.
  destruct (compact_shape text) as [Hn Ha]. split; [|exact Ha]. now apply has_newline_In.
Qed.

Lemma compact_of_tidy (text : string) : tidy text -> compact text = text.
Proof.
  intros [Hn Ha]. unfold compact, Regex.replace_all. cbn [list_ascii_of_string].
  rewrite (scan_newline_and_indent_id _ Hn), string_of_list_ascii_of_string.
  rewrite (scan_two_or_more_spaces_id _ Ha). apply string_of_list_ascii_of_string.
Qed.

(** X10. The compaction changes a text exactly when the text has a
    newline or two spaces in a row; so it is idempotent. *)
Theorem compact_fixed_points (text : string) :
  (compact text = text <-> tidy text)
  /\ tidy (compact text)
  /\ compact (compact text) = compact text.
Proof.
  split; [split|split].
  - intros E. rewrite <- E. apply compact_is_tidy.
  - apply compact_of_tidy.
  - apply compact_is_tidy.
  - apply compact_of_tidy, compact_is_tidy.
Qed.

Section Compaction.

Context `{C : Collaborators}.

(** X11. Whenever [toJSString] returns a text for an indentation of one
    space, [stringify], called as a method of the module, returns a text
    without newline and without two spaces in a row; called detached, it
    throws a TypeError on every input. *)
Theorem stringify_shape (obj : Value) (text : string) :
  (toJSString obj (Some (IndentNumber 1)) = Return (VString text) ->
   exists s, stringify Module_namespace obj = Return (VString s) /\ tidy s)
  /\ stringify detached obj
     = Throw (TypeError "Cannot read properties of undefined (reading 'toJSString')").
Proof.
  split; [|apply stringify_detached].
  intros H. exists (compact text). split; [now apply stringify_of_text|].
  apply compact_is_tidy.
Qed.

End Compaction.

(** ** Renderings the compaction leaves alone *)

Lemma chars_app (a b : string) :
  list_ascii_of_string (a ++ b) = list_ascii_of_string a ++ list_ascii_of_string b.
Proof.
  induction a as [|c a IH]; cbn; [reflexivity|]. now rewrite IH.
Qed.

Lemma starts_with_space_app (a b : list ascii) :
  starts_with_space (a ++ b)
  = match a with [] => starts_with_space b | _ :: _ => starts_with_space a end.
Proof. destruct a; reflexivity. Qed.

Lemma adjacent_spaces_app (a b : list ascii) :
  adjacent_spaces (a ++ b)
  = (adjacent_spaces a || adjacent_spaces b
     || (ends_with_space a && starts_with_space b))%bool.
Proof.
  induction a as [|c t IH]; cbn [app adjacent_spaces ends_with_space].
  - cbn. now rewrite orb_false_r.
  - rewrite IH, starts_with_space_app. destruct t as [|d t'].
    + cbn. destruct (Ascii.eqb c " "), (adjacent_spaces b), (starts_with_space b);
        reflexivity.
    + destruct (Ascii.eqb c " " && starts_with_space (d :: t'))%bool,
        (adjacent_spaces (d :: t')), (adjacent_spaces b),
        (ends_with_space (d :: t') && starts_with_space b)%bool; reflexivity.
Qed.

Lemma whitespace_free_facts (x : list ascii) :
  whitespace_free x = true ->
  has_newline x = false /\ adjacent_spaces x = false
  /\ starts_with_space x = false /\ ends_with_space x = false.
Proof.
  induction x as [|c t IH]; [now repeat split|].
  cbn [whitespace_free forallb]. intros H. apply andb_prop in H as [Hc Ht].
  destruct (IH Ht) as (Hn & Ha & Hs & He).
  unfold is_whitespace in Hc. apply negb_true_iff, orb_false_elim in Hc as [Hsp Hnl].
  repeat split.
  - unfold has_newline in *. cbn [existsb]. rewrite Hn, orb_false_r.
    rewrite Ascii.eqb_sym. exact Hnl.
  - cbn [adjacent_spaces]. now rewrite Hsp, Ha.
  - exact Hsp.
  - cbn [ends_with_space]. destruct t; [exact Hsp|exact He].
Qed.

(** A text without whitespace between two tidy texts. *)
Lemma tidy_wrap (p x q : list ascii) :
  whitespace_free x = true ->
  has_newline p = false -> adjacent_spaces p = false ->
  has_newline q = false -> adjacent_spaces q = false ->
  (x = [] -> (ends_with_space p && starts_with_space q)%bool = false) ->
  has_newline (p ++ x ++ q) = false /\ adjacent_spaces (p ++ x ++ q) = false.
Proof.
  intros Hx Hnp Hap Hnq Haq Hb.
  destruct (whitespace_free_facts x Hx) as (Hn & Ha & Hs & He). split.
  - unfold has_newline in *. now rewrite !existsb_app, Hnp, Hn, Hnq.
  - rewrite !adjacent_spaces_app, starts_with_space_app, Hap, Ha, Haq, He.
    cbn [orb andb]. destruct x as [|c t]; [now apply Hb|].
    rewrite Hs. apply andb_false_r.
Qed.

Lemma ascii_of_N_not_whitespace (m : N) :
  (m < 256)%N -> m <> 32%N -> m <> 10%N -> is_whitespace (ascii_of_N m) = false.
Proof.
  intros Hm H32 H10. unfold is_whitespace. apply orb_false_intro.
  - destruct (Ascii.eqb_spec (ascii_of_N m) " ") as [E|]; [|reflexivity].
    apply (f_equal N_of_ascii) in E. rewrite N_ascii_embedding in E by exact Hm.
    now cbn in E.
  - destruct (Ascii.eqb_spec (ascii_of_N m) (ascii_of_N 10)) as [E|]; [|reflexivity].
    apply (f_equal N_of_ascii) in E. rewrite !N_ascii_embedding in E by lia.
    contradiction.
Qed.

Lemma hex_digit_not_whitespace (d : N) :
  (d < 16)%N -> is_whitespace (Encoding.hex_digit d) = false.
Proof.
  intros H. unfold Encoding.hex_digit.
  destruct (d <? 10)%N; apply ascii_of_N_not_whitespace; lia.
Qed.

Lemma dec_digit_not_whitespace (d : N) :
  (d < 10)%N -> is_whitespace (Encoding.dec_digit d) = false.
Proof.
  intros H. apply ascii_of_N_not_whitespace; lia.
Qed.

Lemma base64_digit_not_whitespace (n : N) :
  is_whitespace (Encoding.base64_digit n) = false.
Proof.
  unfold Encoding.base64_digit.
  destruct (N.ltb_spec n 26); [apply ascii_of_N_not_whitespace; lia|].
  destruct (N.ltb_spec n 52); [apply ascii_of_N_not_whitespace; lia|].
  destruct (N.ltb_spec n 62); [apply ascii_of_N_not_whitespace; lia|].
  destruct (n =? 62)%N; reflexivity.
Qed.

Lemma Forall_whitespace_free (l : list ascii) :
  Forall (fun c => is_whitespace c = false) l -> whitespace_free l = true.
Proof.
  induction 1 as [|c t Hc _ IH]; [reflexivity|].
  cbn [whitespace_free forallb]. rewrite Hc. exact IH.
Qed.

Lemma toHex_whitespace_free (bs : list Byte.byte) :
  whitespace_free (list_ascii_of_string (Encoding.toHex bs)) = true.
Proof.
  unfold Encoding.toHex. rewrite list_ascii_of_string_of_list_ascii.
  induction bs as [|b bs IH]; [reflexivity|].
  cbn [flat_map]. unfold whitespace_free in *. rewrite forallb_app, IH, andb_true_r.
  destruct b; reflexivity.
Qed.

Lemma toBase64_whitespace_free (bs : list Byte.byte) :
  whitespace_free (list_ascii_of_string (Encoding.toBase64 bs)) = true.
Proof.
  unfold Encoding.toBase64. rewrite list_ascii_of_string_of_list_ascii.
  revert bs. fix IH 1. intros [|a [|b [|c rest]]]; cbn [Encoding.base64_list].
  - reflexivity.
  - cbn [whitespace_free forallb]. now rewrite !base64_digit_not_whitespace.
  - cbn [whitespace_free forallb]. now rewrite !base64_digit_not_whitespace.
  - cbn [whitespace_free forallb]. rewrite !base64_digit_not_whitespace.
    cbn [negb andb]. apply IH.
Qed.

Lemma Integer_toString_whitespace_free (z : Z) :
  whitespace_free (list_ascii_of_string (Encoding.Integer_toString z)) = true
  /\ list_ascii_of_string (Encoding.Integer_toString z) <> [].
Proof.
  split.
  - apply Forall_whitespace_free, Integer_toString_chars;
      [reflexivity | exact dec_digit_not_whitespace].
  - unfold Encoding.Integer_toString. destruct (z <? 0)%Z; [discriminate|].
    destruct (N_toString_dec_head (Z.to_N z)) as (c & rest & E & _). now rewrite E.
Qed.

Lemma Number_toString16_whitespace_free (z : Z) :
  whitespace_free (list_ascii_of_string (Encoding.Number_toString16 z)) = true.
Proof.
  apply Forall_whitespace_free.
  unfold Encoding.Number_toString16, Encoding.N_toString.
  destruct (z <? 0)%Z; cbn [append list_ascii_of_string];
    rewrite list_ascii_of_string_of_list_ascii;
    [constructor; [reflexivity|]|];
    (apply digits_are_digits; [lia | exact hex_digit_not_whitespace | constructor]).
Qed.

Section Compaction_of_leaves.

Context `{C : Collaborators}.

(** X12. The compaction of [stringify] leaves the rendering of an
    ObjectId, a Timestamp, a Long, an Int32, a MaxKey, a MinKey and of a
    Binary shown as [BinData(…)] unchanged. *)
Theorem encoded_leaves_survive_compaction (b : BsonValue) (indent : string)
    (k : Stringify) (text : string) :
  encoded_leaf b = true ->
  replacer (VBson b) indent k = Return (VString text) ->
  tidy text /\ compact text = text.
Proof.
  intros Hb Hr. assert (Ht : tidy text); [|split; [exact Ht|now apply compact_of_tidy]].
  unfold tidy. destruct b; try discriminate Hb.
  - assert (E : text = ("ObjectId('" ++ bson.ObjectId_toString o ++ "')")%string)
      by (destruct legacy_tag; cbn in Hr; now injection Hr as <-).
    subst text. rewrite !chars_app.
    apply tidy_wrap; try reflexivity. apply toHex_whitespace_free.
  - unfold encoded_leaf in Hb. apply negb_true_iff in Hb.
    assert (E : text = ("BinData(" ++ Encoding.Number_toString16 (bson.sub_type v) ++ ", '"
                        ++ bson.Binary_toString_base64 v ++ "')")%string).
    { rewrite replacer_Binary in Hr. unfold BSON_TO_JS_STRING.Binary in Hr.
      rewrite Hb in Hr. cbn [bind] in Hr. now injection Hr as <-. }
    subst text. rewrite !chars_app.
    destruct (tidy_wrap (list_ascii_of_string ", '")
                (list_ascii_of_string (bson.Binary_toString_base64 v))
                (list_ascii_of_string "')")) as [Hn Ha]; try reflexivity.
    { apply toBase64_whitespace_free. }
    apply tidy_wrap; try reflexivity; try assumption.
    apply Number_toString16_whitespace_free.
  - assert (E : text = ("Timestamp({ t: " ++ Encoding.Integer_toString (bson.high t)
                        ++ ", i: " ++ Encoding.Integer_toString (bson.low t) ++ " })")%string)
      by (cbn in Hr; now injection Hr as <-).
    subst text. rewrite !chars_app.
    destruct (Integer_toString_whitespace_free (bson.high t)) as [Hh _].
    destruct (Integer_toString_whitespace_free (bson.low t)) as [Hl Hne].
    destruct (tidy_wrap (list_ascii_of_string ", i: ")
                (list_ascii_of_string (Encoding.Integer_toString (bson.low t)))
                (list_ascii_of_string " })")) as [Hn Ha];
      try reflexivity; try assumption; [intros E; contradiction|].
    apply tidy_wrap; try reflexivity; assumption.
  - assert (E : text = ("NumberLong(" ++ bson.Long_toString l ++ ")")%string)
      by (cbn in Hr; now injection Hr as <-).
    subst text. rewrite !chars_app.
    apply tidy_wrap; try reflexivity. apply Integer_toString_whitespace_free.
  - assert (E : text = ("NumberInt('" ++ Encoding.Integer_toString (bson.int32_value i)
                        ++ "')")%string)
      by (cbn in Hr; now injection Hr as <-).
    subst text. rewrite !chars_app.
    apply tidy_wrap; try reflexivity. apply Integer_toString_whitespace_free.
  - cbn in Hr. injection Hr as <-. split; reflexivity.
  - cbn in Hr. injection Hr as <-. split; reflexivity.
Qed.

End Compaction_of_leaves.

(** ** The RegExp formatter and newlines *)

Lemma json_escape_no_newline (c : ascii) : has_newline (Encoding.json_escape c) = false.
Proof.
  destruct c as [[] [] [] [] [] [] [] []]; reflexivity.
Qed.

Lemma JSON_stringify_string_no_newline (s : string) :
  has_newline (list_ascii_of_string (Encoding.JSON_stringify_string s)) = false.
Proof.
  unfold Encoding.JSON_stringify_string. rewrite list_ascii_of_string_of_list_ascii.
  assert (H : forall l, has_newline (flat_map Encoding.json_escape l) = false).
  { induction l as [|c t IH]; [reflexivity|]. cbn [flat_map]. unfold has_newline in *.
    now rewrite existsb_app, IH, json_escape_no_newline. }
  unfold has_newline in *. cbn [existsb]. now rewrite existsb_app, H.
Qed.

Lemma RegExp_text (v : RegExpObj) :
  BSON_TO_JS_STRING.RegExp v
  = Return ("RegExp(" ++ Encoding.JSON_stringify_string (source v)
            ++ (if (global v || ignoreCase v || multiline v)%bool
                then ", '" ++ flags_in_order v ++ "'" else "") ++ ")")%string.
Proof.
  unfold BSON_TO_JS_STRING.RegExp, flags_in_order.
  destruct (global v), (ignoreCase v), (multiline v); reflexivity.
Qed.

(** X13. The rendering of a RegExp has no newline, whatever its source:
    the source is JSON-quoted, which escapes it. *)
Theorem RegExp_rendering_single_line (v : RegExpObj) :
  exists text,
    BSON_TO_JS_STRING.RegExp v = Return text
    /\ has_newline (list_ascii_of_string text) = false.
Proof.
  eexists. split; [apply RegExp_text|].
  pose proof (JSON_stringify_string_no_newline (source v)) as Hq.
  unfold has_newline in *. rewrite !chars_app, !existsb_app, Hq.
  unfold flags_in_order.
  destruct (global v), (ignoreCase v), (multiline v); reflexivity.
Qed.

(* ================================================================== *)
(** * The further properties on the reference collaborators *)
(* ================================================================== *)

Section More_runs.

Import Examples.

Local Existing Instance Reference.collaborators.

Lemma detectType_reads_internal_class_witness :
  detectType (VArray []) = VString "Array" /\ detectType (VHost "Map") = VUndefined.
Proof.
  split.
  - exact (proj1 (detectType_reads_internal_class (VArray [])) eq_refl).
  - exact (proj2 (detectType_reads_internal_class (VHost "Map")) eq_refl).
Defined.

Lemma replacer_delegates_plain_values_witness :
  replacer (VArray [VNull]) " " silent = silent (VArray [VNull]).
Proof.
  apply (replacer_delegates_plain_values (VArray [VNull]) " " silent); discriminate.
Defined.

Lemma replacer_falls_through_witness :
  replacer (tagged "BSONSymbol") " " silent = silent (tagged "BSONSymbol").
Proof.
  apply (replacer_falls_through (tagged "BSONSymbol") "BSONSymbol" " " silent);
    try reflexivity; try discriminate.
  cbn [In Object_prototype_names]. intuition discriminate.
Defined.

Lemma formatted_leaf_rendering_witness :
  exists f,
    formatter_of (long 5) = Some f
    /\ replacer (long 5) " " silent = bind f (fun text => Return (VString text))
    /\ exists text, f = Return text /\ replacer (long 5) " " silent = Return (VString text).
Proof.
  destruct (formatted_leaf_rendering (long 5) " " silent eq_refl) as (f & Ef & Hr & Ht).
  exists f. split; [exact Ef|]. split; [exact Hr|].
  apply Ht. intros code scope E. discriminate E.
Defined.

Lemma parseObjectId_then_format_witness :
  exists v,
    fst (parseObjectId "507F1F77BCF86CD799439011") = Return v
    /\ replacer v " " silent = Return (VString "ObjectId('507f1f77bcf86cd799439011')").
Proof.
  exact (parseObjectId_then_format "507F1F77BCF86CD799439011" " " silent eq_refl).
Defined.

Lemma parseObjectId_inverts_text_witness :
  parseObjectId (bson.ObjectId_toString (bson.ObjectId_fromHex hex_id))
  = (Return (VBson (BObjectId false (bson.ObjectId_fromHex hex_id))), []).
Proof.
  exact (parseObjectId_inverts_text (bson.ObjectId_fromHex hex_id) eq_refl).
Defined.

Lemma Date_formatter_catches_witness :
  Date_prototype_toISOString invalid_date = Throw (RangeError "Invalid time value")
  /\ BSON_TO_JS_STRING.Date invalid_date = Return "ISODate('Invalid Date')".
Proof.
  exact (proj2 (proj2 (Date_formatter_catches invalid_date)) eq_refl).
Defined.

Lemma integer_renderings_determine_value_witness :
  bson.Long_value minus_two = bson.Long_value minus_two /\ minus_two = minus_two.
Proof.
  destruct (proj1 integer_renderings_determine_value minus_two minus_two eq_refl)
    as [H1 H2].
  split; [exact H1|].
  apply H2; try reflexivity; unfold Long_well_formed, int32; cbn; lia.
Defined.

Lemma Timestamp_rendering_determines_halves_witness :
  bson.high timestamp = bson.high timestamp /\ bson.low timestamp = bson.low timestamp.
Proof.
  exact (Timestamp_rendering_determines_halves timestamp timestamp eq_refl).
Defined.

Lemma ObjectId_rendering_determines_id_witness :
  bson.ObjectId_fromHex hex_id = bson.ObjectId_fromHex hex_id.
Proof.
  exact (ObjectId_rendering_determines_id (bson.ObjectId_fromHex hex_id)
           (bson.ObjectId_fromHex hex_id) eq_refl).
Defined.

Lemma compact_fixed_points_witness : compact "{a: 1}" = "{a: 1}".
Proof.
  apply (proj2 (proj1 (compact_fixed_points "{a: 1}"))). split; reflexivity.
Defined.

Lemma stringify_shape_witness :
  exists s, stringify Module_namespace one = Return (VString s) /\ tidy s.
Proof.
  exact (proj1 (stringify_shape one rendering_of_one) eq_refl).
Defined.

Lemma encoded_leaves_survive_compaction_witness :
  tidy "Timestamp({ t: 1700000000, i: 7 })"
  /\ compact "Timestamp({ t: 1700000000, i: 7 })" = "Timestamp({ t: 1700000000, i: 7 })".
Proof.
  exact (encoded_leaves_survive_compaction (BTimestamp timestamp) " " silent
           "Timestamp({ t: 1700000000, i: 7 })" eq_refl eq_refl).
Defined.

(** On a leaf outside those classes the compaction does alter the text: two
    spaces in a string are one afterwards. *)
Example stringify_alters_string_leaf :
  toJSString (VString "a  b") (Some (IndentNumber 1)) = Return (VString "'a  b'")
  /\ stringify Module_namespace (VString "a  b") = Return (VString "'a b'").
Proof. split; reflexivity. Qed.

End More_runs.
